(** * Resilient data-access layer of the dashboard front end

    A shallow embedding of the JavaScript service layer
    ([services/api.js], the two revisions of [services/dataService.js],
    [services/mockData.js], [components/ErrorMessage.jsx]) and of the
    fetch-lifecycle hook, with the properties of the specification proved
    or refuted over it.

    Conventions of the embedding:
    - JavaScript values are [JsValue]; numbers are the integers [Z]
      (fractions and the infinities are outside the model, and NaN is
      only met as the result [None] of a numeric conversion);
    - arrays are references into a heap of array objects, because
      [Array.prototype.sort] updates its receiver in place; objects are
      never updated by this code and are carried by value;
    - an [async] function is a computation in the monad [Async]: it reads
      and writes the heap, completes normally or abruptly (a rejected
      promise), and records the network requests and timers it starts;
    - what the platform answers (axios adapter, [fetch], the clock) is
      read from a [World]. Console output is not modelled. *)

From Stdlib Require Import ZArith String List Bool Lia Permutation.
From stdpp Require Import base tactics option list strings pretty sorting.

Import ListNotations.
Set Warnings "-register-all".
Local Open Scope string_scope.
Local Open Scope list_scope.

(** ** JavaScript values *)

(** A location of the heap of array objects. *)
Abbreviation loc := nat.

Inductive JsValue : Type :=
  | JsUndefined
  | JsNull
  | JsBool (b : bool)
  | JsNumber (n : Z)
  | JsString (s : string)
  | JsArray (r : loc)
  | JsObject (props : list (string * JsValue)).

(** ToBoolean. *)
Definition truthy (v : JsValue) : bool :=
  match v with
  | JsUndefined | JsNull => false
  | JsBool b => b
  | JsNumber n => negb (n =? 0)%Z
  | JsString s => negb (String.eqb s "")
  | JsArray _ | JsObject _ => true
  end.

(** [a || b]. *)
Definition js_or (a b : JsValue) : JsValue :=
  if truthy a then a else b.

Definition is_null (v : JsValue) : bool :=
  match v with JsNull => true | _ => false end.

(** [Array.isArray(v)]. *)
Definition isArray (v : JsValue) : bool :=
  match v with JsArray _ => true | _ => false end.

(** Own-property lookup in an object literal or a parsed JSON object. *)
Fixpoint lookup_prop (name : string) (props : list (string * JsValue))
  : JsValue :=
  match props with
  | [] => JsUndefined
  | (k, v) :: rest => if String.eqb k name then v else lookup_prop name rest
  end.

(** A value that is neither an object nor an array reference. *)
Definition scalar (v : JsValue) : bool :=
  match v with
  | JsArray _ | JsObject _ => false
  | _ => true
  end.

(** SameValueZero, the equality of [Set]. Primitives compare by value and
    arrays by reference. Two object values met by this code are always two
    different objects (each comes from its own place in a parsed JSON
    text), so they never compare equal. *)
Definition same_value_zero (a b : JsValue) : bool :=
  match a, b with
  | JsUndefined, JsUndefined => true
  | JsNull, JsNull => true
  | JsBool x, JsBool y => Bool.eqb x y
  | JsNumber x, JsNumber y => (x =? y)%Z
  | JsString x, JsString y => String.eqb x y
  | JsArray x, JsArray y => Nat.eqb x y
  | _, _ => false
  end.

(** A JavaScript [Set], in insertion order. *)
Module JsSet.
Definition t := list JsValue.
Definition empty : t := [].
Definition has (v : JsValue) (s : t) : bool := existsb (same_value_zero v) s.
Definition add (v : JsValue) (s : t) : t := if has v s then s else s ++ [v].
Definition size (s : t) : Z := Z.of_nat (length s).
End JsSet.

(** ** The heap of array objects *)

Abbreviation Heap := (list (list JsValue)).

Definition heap_read (h : Heap) (r : loc) : list JsValue :=
  default [] (h !! r).

Definition heap_alloc (h : Heap) (items : list JsValue) : loc * Heap :=
  (length h, h ++ [items]).

Definition heap_write (h : Heap) (r : loc) (items : list JsValue) : Heap :=
  <[r := items]> h.

(** ** Errors *)

(** The error object built by the response interceptor of [api.js]. *)
Module NormalizedError.
Record t := mk {
  message : string;
  status : option Z;
  statusText : option string;
  data : JsValue;
  isNetworkError : bool;
  isTimeout : bool;
  url : option string;
}.
End NormalizedError.

(** What this code throws or catches: the interceptor's object, or an
    [Error] instance ([name] is the constructor: Error, TypeError,
    SyntaxError). *)
Inductive ErrorValue : Type :=
  | EnhancedError (e : NormalizedError.t)
  | JsError (name message : string).

(** ** Asynchronous computations *)

Inductive Event : Type :=
  | EvHttp (method url : string)
  | EvFetch (url : string)
  | EvDelay (ms : Z).


Inductive Completion (A : Type) : Type :=
  | Normal (a : A)
  | Throw (e : ErrorValue).
Arguments Normal {A} a.
Arguments Throw {A} e.

Definition Async (A : Type) : Type :=
  Heap -> Completion A * Heap * list Event.

Definition ret {A} (a : A) : Async A :=
  fun h => (Normal a, h, []).

Definition throw {A} (e : ErrorValue) : Async A :=
  fun h => (Throw e, h, []).

Definition bind {A B} (m : Async A) (f : A -> Async B) : Async B :=
  fun h =>
    match m h with
    | (Normal a, h1, t1) =>
        match f a h1 with
        | (c, h2, t2) => (c, h2, t1 ++ t2)
        end
    | (Throw e, h1, t1) => (Throw e, h1, t1)
    end.

(** [try { body } catch (e) { handler e }]. *)
Definition try_catch {A} (body : Async A) (handler : ErrorValue -> Async A)
  : Async A :=
  fun h =>
    match body h with
    | (Normal a, h1, t1) => (Normal a, h1, t1)
    | (Throw e, h1, t1) =>
        match handler e h1 with
        | (c, h2, t2) => (c, h2, t1 ++ t2)
        end
    end.

Definition emit (ev : Event) : Async unit :=
  fun h => (Normal tt, h, [ev]).

Definition read_array (r : loc) : Async (list JsValue) :=
  fun h => (Normal (heap_read h r), h, []).

Definition new_array (items : list JsValue) : Async loc :=
  fun h => match heap_alloc h items with (r, h') => (Normal r, h', []) end.

Definition write_array (r : loc) (items : list JsValue) : Async unit :=
  fun h => (Normal tt, heap_write h r items, []).

Declare Scope async_scope.
Delimit Scope async_scope with async.
Notation "'let*' x := m 'in' k" := (bind m (fun x => k))
  (at level 10, x name, m at level 100, k at level 200) : async_scope.
Notation "'do' m 'in' k" := (bind m (fun _ => k))
  (at level 10, m at level 100, k at level 200) : async_scope.
Local Open Scope async_scope.

Definition completion {A} (x : Completion A * Heap * list Event)
  : Completion A := fst (fst x).
Definition final_heap {A} (x : Completion A * Heap * list Event)
  : Heap := snd (fst x).
Definition trace {A} (x : Completion A * Heap * list Event)
  : list Event := snd x.

(** [e.f] for a property name [f] that no prototype defines: a TypeError
    on [null] and [undefined], the own property of an object, and
    [undefined] on every other value. *)
Definition get_prop (name : string) (v : JsValue) : Async JsValue :=
  match v with
  | JsUndefined | JsNull =>
      throw (JsError "TypeError" ("Cannot read properties of null or undefined (reading '" +:+ name +:+ "')"))
  | JsObject props => ret (lookup_prop name props)
  | _ => ret JsUndefined
  end.

(** [for (const x of items) body], threading the loop's variables. *)
Fixpoint for_of {S : Type} (body : S -> JsValue -> Async S)
  (items : list JsValue) (s : S) : Async S :=
  match items with
  | [] => ret s
  | x :: rest => let* s' := body s x in for_of body rest s'
  end.

(** ** What the platform answers *)

Module AxiosRequestConfig.
Record t := mk {
  method : string;
  url : string;
  data : JsValue;
  options : list (string * JsValue);
}.
End AxiosRequestConfig.

Module AxiosResponse.
Record t := mk {
  status : Z;
  statusText : string;
  data : JsValue;
  config : AxiosRequestConfig.t;
}.
End AxiosResponse.

(** The error axios rejects with: [response] is absent when no answer
    arrived, [code] is ['ECONNABORTED'] when the request was aborted at
    the configured timeout. *)
Module AxiosError.
Record t := mk {
  message : string;
  code : option string;
  response : option AxiosResponse.t;
  config : option AxiosRequestConfig.t;
}.
End AxiosError.

(** What [response.json()] settles with. *)
Inductive JsonOutcome : Type :=
  | JsonParsed (payload : JsValue)
  | JsonRejected (e : ErrorValue).

Module FetchResponse.
Record t := mk {
  status : Z;
  body : JsonOutcome;
}.
(** [response.ok]: the status is in the range 200-299. *)
Definition ok (r : t) : bool :=
  ((200 <=? status r) && (status r <=? 299))%Z.
End FetchResponse.

Inductive FetchOutcome : Type :=
  | FetchResolved (response : FetchResponse.t)
  | FetchRejected (e : ErrorValue).

Record World := {
  adapter : AxiosRequestConfig.t -> AxiosResponse.t + AxiosError.t;
  fetch_outcome : string -> FetchOutcome;
  now_iso : string;
  coerce_number : JsValue -> option Z;
}.

(** [fetch(url)]. *)
Definition fetch (w : World) (url : string) : Async FetchResponse.t :=
  do emit (EvFetch url) in
  match fetch_outcome w url with
  | FetchResolved response => ret response
  | FetchRejected e => throw e
  end.

(** [response.json()]. *)
Definition json (response : FetchResponse.t) : Async JsValue :=
  match FetchResponse.body response with
  | JsonParsed payload => ret payload
  | JsonRejected e => throw e
  end.

(** The values a [for ... of] loop visits: the elements of an array, the
    characters of a string; other JSON values are not iterable. *)
Definition iterate (v : JsValue) : Async (list JsValue) :=
  match v with
  | JsArray r => read_array r
  | JsString s =>
      ret (map (fun c => JsString (String c EmptyString)) (list_ascii_of_string s))
  | _ => throw (JsError "TypeError" "value is not iterable")
  end.

(** [[...v]]: a new array with the values that [v] iterates over. *)
Definition spread (v : JsValue) : Async loc :=
  let* items := iterate v in new_array items.

(** ToNumber: [None] stands for NaN. Strings and objects are converted
    by the platform. *)
Definition to_number (w : World) (v : JsValue) : option Z :=
  match v with
  | JsUndefined => None
  | JsNull => Some 0%Z
  | JsBool b => Some (if b then 1 else 0)%Z
  | JsNumber n => Some n
  | _ => coerce_number w v
  end.

(** [a - b]. *)
Definition js_sub (w : World) (a b : JsValue) : option Z :=
  match to_number w a, to_number w b with
  | Some m, Some n => Some (m - n)%Z
  | _, _ => None
  end.

(** ** Array.prototype.sort

    The sort is stable and in place; a comparator result that is NaN
    counts as zero, and [undefined] elements go to the end without being
    compared. For a consistent comparator every stable sort gives the same
    array, here computed by insertion. *)

(** The comparator's result does not ask for a swap: it is negative,
    zero or NaN. *)
Definition before_or_equal (c : option Z) : bool :=
  match c with
  | Some z => (z <=? 0)%Z
  | None => true
  end.

(** [x], which precedes the elements of [l] in the array, goes in front
    of the first element it need not follow. *)
Fixpoint insert_sorted (cmp : JsValue -> JsValue -> Async (option Z))
  (x : JsValue) (l : list JsValue) : Async (list JsValue) :=
  match l with
  | [] => ret [x]
  | y :: ys =>
      let* c := cmp x y in
      if before_or_equal c then ret (x :: y :: ys)
      else let* r := insert_sorted cmp x ys in ret (y :: r)
  end.

(** The sorted sequence of the defined elements. *)
Fixpoint sort_items (cmp : JsValue -> JsValue -> Async (option Z))
  (l : list JsValue) : Async (list JsValue) :=
  match l with
  | [] => ret []
  | x :: xs => let* s := sort_items cmp xs in insert_sorted cmp x s
  end.

Definition is_undefined (v : JsValue) : bool :=
  match v with JsUndefined => true | _ => false end.

(** [array.sort(cmp)] on the array at [r]. *)
Definition array_sort (cmp : JsValue -> JsValue -> Async (option Z))
  (r : loc) : Async unit :=
  let* items := read_array r in
  let* sorted :=
    sort_items cmp (List.filter (fun v => negb (is_undefined v)) items) in
  write_array r (sorted ++ List.filter is_undefined items).
Arguments array_sort : simpl never.

(** ** services/api.js *)

(** The result pair of the request wrapper and of every service method:
    [error] is [None] for JavaScript's [null]. *)
Module Envelope.
Record t := mk {
  data : JsValue;
  error : option ErrorValue;
}.
End Envelope.

(** The object built in the rejection handler of the response
    interceptor. *)
Definition enhancedError (error : AxiosError.t) : NormalizedError.t :=
  {| NormalizedError.message := AxiosError.message error;
     NormalizedError.status :=
       option_map AxiosResponse.status (AxiosError.response error);
     NormalizedError.statusText :=
       option_map AxiosResponse.statusText (AxiosError.response error);
     NormalizedError.data :=
       match AxiosError.response error with
       | Some response => AxiosResponse.data response
       | None => JsUndefined
       end;
     NormalizedError.isNetworkError :=
       match AxiosError.response error with
       | Some _ => false
       | None => true
       end;
     NormalizedError.isTimeout :=
       match AxiosError.code error with
       | Some c => String.eqb c "ECONNABORTED"
       | None => false
       end;
     NormalizedError.url :=
       option_map AxiosRequestConfig.url (AxiosError.config error) |}.

(** The axios instance with its interceptors: the request goes out, a
    response is handed on unchanged, a failure is rejected as the
    enhanced error. *)
Definition apiClient (w : World) (requestConfig : AxiosRequestConfig.t)
  : Async AxiosResponse.t :=
  do emit (EvHttp (AxiosRequestConfig.method requestConfig)
                  (AxiosRequestConfig.url requestConfig)) in
  match adapter w requestConfig with
  | inl response => ret response
  | inr error => throw (EnhancedError (enhancedError error))
  end.

(** A parameter default: it applies when the argument is [undefined]. *)
Definition default_param (v d : JsValue) : JsValue :=
  match v with JsUndefined => d | _ => v end.

Definition apiRequest (w : World) (method url : string) (data : JsValue)
  (options : list (string * JsValue)) : Async Envelope.t :=
  let data := default_param data JsNull in
  try_catch
    (let* response :=
       apiClient w (AxiosRequestConfig.mk method url data options) in
     ret (Envelope.mk (AxiosResponse.data response) None))
    (fun error => ret (Envelope.mk JsNull (Some error))).

Module api.
Definition get (w : World) (url : string) options :=
  apiRequest w "GET" url JsNull options.
Definition post (w : World) (url : string) data options :=
  apiRequest w "POST" url data options.
Definition put (w : World) (url : string) data options :=
  apiRequest w "PUT" url data options.
Definition patch (w : World) (url : string) data options :=
  apiRequest w "PATCH" url data options.
Definition delete (w : World) (url : string) options :=
  apiRequest w "DELETE" url JsNull options.
End api.

(** ** components/ErrorMessage.jsx *)

(** [error.message || 'Something went wrong. Please try again.']. *)
Definition message_or_default (message : string) : string :=
  if String.eqb message "" then "Something went wrong. Please try again."
  else message.

(** The text shown for an error; an [Error] instance has none of the
    fields [isNetworkError], [isTimeout] and [status]. *)
Definition getErrorMessage (error : option ErrorValue) : string :=
  match error with
  | None => "An unknown error occurred"
  | Some (EnhancedError e) =>
      if NormalizedError.isNetworkError e then
        "Unable to connect to the server. Please check your connection."
      else if NormalizedError.isTimeout e then
        "Request timed out. The server took too long to respond."
      else if bool_decide (NormalizedError.status e = Some 404%Z) then
        "The requested resource was not found."
      else if bool_decide (NormalizedError.status e = Some 500%Z) then
        "Server error. Please try again later."
      else message_or_default (NormalizedError.message e)
  | Some (JsError _ message) => message_or_default message
  end.

(** ** services/mockData.js *)

Module mockData.
Definition table (name source purpose : string) (recordCount : Z)
  (lastUpdated : string) : JsValue :=
  JsObject [("name", JsString name); ("source", JsString source);
            ("purpose", JsString purpose);
            ("recordCount", JsNumber recordCount);
            ("lastUpdated", JsString lastUpdated)].

Definition export (name path description size : string) (rows : Z)
  (createdAt : string) : JsValue :=
  JsObject [("name", JsString name); ("path", JsString path);
            ("description", JsString description);
            ("size", JsString size); ("rows", JsNumber rows);
            ("createdAt", JsString createdAt)].

Definition notebook (name path description lastRun status : string)
  : JsValue :=
  JsObject [("name", JsString name); ("path", JsString path);
            ("description", JsString description);
            ("lastRun", JsString lastRun); ("status", JsString status)].

Definition script (name path description : string) (lines : Z) : JsValue :=
  JsObject [("name", JsString name); ("path", JsString path);
            ("description", JsString description);
            ("lines", JsNumber lines)].

Definition tables_items : list JsValue :=
  [ table "block_group" "data/block_group.json"
      "Census block group geometry and demographics" 1523 "2024-01-15";
    table "business_location" "data/business_location.json"
      "Geocoded business locations with attributes" 45289 "2024-01-14";
    table "city" "data/city.json"
      "City boundaries and metadata" 342 "2024-01-10";
    table "zipcode" "data/zipcode.json"
      "Zipcode polygons for aggregation and filtering" 1876 "2024-01-12";
    table "zone_location" "data/zone_location.json"
      "Zoning-based scoring locations and candidate sites" 8934
      "2024-01-16" ].

Definition exports_items : list JsValue :=
  [ export "blockgroups.csv" "exports/blockgroups.csv"
      "Scored block groups for candidate regions" "2.3 MB" 15234
      "2024-01-15T10:30:00Z";
    export "locations.csv" "exports/locations.csv"
      "Store and candidate locations with features" "8.7 MB" 45289
      "2024-01-14T14:20:00Z";
    export "businesses.csv" "exports/businesses.csv"
      "Business-level attributes for graph ingestion" "12.1 MB" 67123
      "2024-01-16T09:15:00Z" ].

Definition notebooks_items : list JsValue :=
  [ notebook "city_attributes.ipynb" "notebooks/city_attributes.ipynb"
      "City-level attributes and enrichment" "2024-01-14T16:45:00Z"
      "success";
    notebook "neo4j_analytics.ipynb" "notebooks/neo4j_analytics.ipynb"
      "Graph analytics over the Neo4j model" "2024-01-15T11:20:00Z"
      "success";
    notebook "neo4j_visualization.ipynb"
      "notebooks/neo4j_visualization.ipynb"
      "Visual exploration of the graph" "2024-01-15T13:30:00Z" "success";
    notebook "neo4j_llm.ipynb" "notebooks/neo4j_llm.ipynb"
      "LLM-assisted categorization and enrichment" "2024-01-16T10:00:00Z"
      "running" ].

Definition scripts_items : list JsValue :=
  [ script "analysis_block_group_tables.sql"
      "scripts/analysis_block_group_tables.sql"
      "Analysis helpers over block group tables" 342;
    script "analysis_esri_tables.sql" "scripts/analysis_esri_tables.sql"
      "ESRI enrichment and QA queries" 278;
    script "create_postgres_tables.sql"
      "scripts/create_postgres_tables.sql"
      "Core relational schema for the pipeline" 456;
    script "etl_entity_tables.sql" "scripts/etl_entity_tables.sql"
      "Entity ETL into the warehouse" 523;
    script "etl_entity_relationships.sql"
      "scripts/etl_entity_relationships.sql"
      "Relationship ETL supporting the knowledge graph" 612 ].

(** The four fixture arrays are created when the module is loaded; they
    are the first four array objects of the heap. *)
Definition heap : Heap :=
  [tables_items; exports_items; notebooks_items; scripts_items].

Definition tables : JsValue := JsArray 0.
Definition exports : JsValue := JsArray 1.
Definition notebooks : JsValue := JsArray 2.
Definition scripts : JsValue := JsArray 3.

Definition stats : JsValue :=
  JsObject [("totalBusinesses", JsNumber 67123);
            ("totalBlockGroups", JsNumber 1523);
            ("totalCities", JsNumber 342);
            ("totalZipcodes", JsNumber 1876);
            ("graphNodes", JsNumber 125847);
            ("graphRelationships", JsNumber 342156);
            ("lastUpdated", JsString "2024-01-16T12:00:00Z")].
End mockData.

(** [delay(ms)]: a timer; the default is 500 ms. *)
Definition delay (ms : Z) : Async unit := emit (EvDelay ms).

Module mockApi.
Definition getTables : Async JsValue :=
  do delay 500 in ret mockData.tables.
Definition getExports : Async JsValue :=
  do delay 500 in ret mockData.exports.
Definition getNotebooks : Async JsValue :=
  do delay 500 in ret mockData.notebooks.
Definition getScripts : Async JsValue :=
  do delay 500 in ret mockData.scripts.
Definition getStats : Async JsValue :=
  do delay 500 in ret mockData.stats.
End mockApi.

(** ** services/dataService.js, the revision with derived statistics and
    territory metrics

    [useMock] is the module constant read from the configuration. *)

(** [if (error)]: an error object is truthy, [null] is not. *)
Definition error_truthy (error : option ErrorValue) : bool :=
  match error with Some _ => true | None => false end.

(** The variables of the loop of [getStats]. *)
Record Counters := {
  totalBusinesses : Z;
  zips : JsSet.t;
  blockgroups : JsSet.t;
  cities : JsSet.t;
}.

(** [if (v) s.add(v)]. *)
Definition add_if_truthy (v : JsValue) (s : JsSet.t) : JsSet.t :=
  if truthy v then JsSet.add v s else s.

(** The body of the loop of [getStats]. *)
Definition count_record (acc : Counters) (rec : JsValue) : Async Counters :=
  let total := (totalBusinesses acc + 1)%Z in
  let* zip := get_prop "zip_code" rec in
  let zs := add_if_truthy zip (zips acc) in
  let* bg := get_prop "blockgroup" rec in
  let bs := add_if_truthy bg (blockgroups acc) in
  let* city := get_prop "city" rec in
  let cs := add_if_truthy city (cities acc) in
  ret {| totalBusinesses := total; zips := zs; blockgroups := bs;
         cities := cs |}.

(** The comparator of [getTerritoryMetrics]:
    [(b.business_count || 0) - (a.business_count || 0)]. *)
Definition by_business_count (w : World) (a b : JsValue)
  : Async (option Z) :=
  let* bc := get_prop "business_count" b in
  let* ac := get_prop "business_count" a in
  ret (js_sub w (js_or bc (JsNumber 0)) (js_or ac (JsNumber 0))).

Module dataService.
Definition getTables (w : World) (useMock : bool) : Async Envelope.t :=
  if useMock then
    let* d := mockApi.getTables in ret (Envelope.mk d None)
  else
    let* r := api.get w "/api/tables" [] in
    if error_truthy (Envelope.error r) then
      let* d := mockApi.getTables in ret (Envelope.mk d None)
    else ret (Envelope.mk (Envelope.data r) (Envelope.error r)).

Definition getExports (w : World) (useMock : bool) : Async Envelope.t :=
  if useMock then
    let* d := mockApi.getExports in ret (Envelope.mk d None)
  else
    let* r := api.get w "/api/exports" [] in
    if error_truthy (Envelope.error r) then
      let* d := mockApi.getExports in ret (Envelope.mk d None)
    else ret (Envelope.mk (Envelope.data r) (Envelope.error r)).

Definition getNotebooks (w : World) (useMock : bool) : Async Envelope.t :=
  if useMock then
    let* d := mockApi.getNotebooks in ret (Envelope.mk d None)
  else
    let* r := api.get w "/api/notebooks" [] in
    if error_truthy (Envelope.error r) then
      let* d := mockApi.getNotebooks in ret (Envelope.mk d None)
    else ret (Envelope.mk (Envelope.data r) (Envelope.error r)).

Definition getScripts (w : World) (useMock : bool) : Async Envelope.t :=
  if useMock then
    let* d := mockApi.getScripts in ret (Envelope.mk d None)
  else
    let* r := api.get w "/api/scripts" [] in
    if error_truthy (Envelope.error r) then
      let* d := mockApi.getScripts in ret (Envelope.mk d None)
    else ret (Envelope.mk (Envelope.data r) (Envelope.error r)).

(** The body does not mention [useMock]. *)
Definition getStats (w : World) (useMock : bool) : Async Envelope.t :=
  try_catch
    (let* response := fetch w "/data/ca_businesses_standardized.json" in
     if negb (FetchResponse.ok response) then
       throw (JsError "Error"
                ("Failed to load standardized data: "
                 +:+ pretty (FetchResponse.status response)))
     else
       let* records := json response in
       let* items := iterate records in
       let* acc :=
         for_of count_record items
           {| totalBusinesses := 0; zips := JsSet.empty;
              blockgroups := JsSet.empty; cities := JsSet.empty |} in
       let stats :=
         JsObject [("totalBusinesses", JsNumber (totalBusinesses acc));
                   ("totalBlockGroups",
                    JsNumber (JsSet.size (blockgroups acc)));
                   ("totalCities", JsNumber (JsSet.size (cities acc)));
                   ("totalZipcodes", JsNumber (JsSet.size (zips acc)));
                   ("graphNodes", JsNull);
                   ("graphRelationships", JsNull);
                   ("lastUpdated", JsString (now_iso w))] in
       ret (Envelope.mk stats None))
    (fun error =>
       let* d := mockApi.getStats in ret (Envelope.mk d None)).

Definition getTerritoryMetrics (w : World) (useMock : bool)
  : Async Envelope.t :=
  try_catch
    (let* response :=
       fetch w "/data/ca_businesses_standardized_by_zip_code.json" in
     if negb (FetchResponse.ok response) then
       throw (JsError "Error"
                ("Failed to load territory metrics: "
                 +:+ pretty (FetchResponse.status response)))
     else
       let* payload := json response in
       let* field := get_prop "territories" payload in
       let* territories :=
         if isArray field then spread field else new_array [] in
       do array_sort (by_business_count w) territories in
       let* group_by := get_prop "group_by" payload in
       let* summary := get_prop "summary" payload in
       let data :=
         JsObject [("groupBy", js_or group_by (JsString "zip_code"));
                   ("summary", js_or summary JsNull);
                   ("territories", JsArray territories)] in
       ret (Envelope.mk data None))
    (fun error => ret (Envelope.mk JsNull (Some error))).

Definition healthCheck (w : World) (useMock : bool) : Async Envelope.t :=
  let* r := api.get w "/health" [] in
  ret (Envelope.mk (Envelope.data r) (Envelope.error r)).
End dataService.

(** ** services/dataService.js, the revision with the statistics endpoint

    Its list methods and [healthCheck] are those above; [getStats]
    follows the same pattern against [/api/stats]. *)
Module directDataService.
Definition getStats (w : World) (useMock : bool) : Async Envelope.t :=
  if useMock then
    let* d := mockApi.getStats in ret (Envelope.mk d None)
  else
    let* r := api.get w "/api/stats" [] in
    if error_truthy (Envelope.error r) then
      let* d := mockApi.getStats in ret (Envelope.mk d None)
    else ret (Envelope.mk (Envelope.data r) (Envelope.error r)).
End directDataService.

(** ** hooks/useApi.js *)

(** Modelled from the spec: the source of the fetch-lifecycle hook
    [useApi] is absent (only its callers in [App.jsx] are present). The
    state is [{data, loading, error}] with the internal generation
    counter; entering [loading] clears the error, sets [loading], bumps
    the counter and captures its value; a resolution is adopted only
    when the counter still equals the captured value. *)
Module useApi.
(** Modelled from the spec: the fetch state owned by one hook instance,
    with its internal generation counter. *)
Record FetchState := {
  data : JsValue;
  loading : bool;
  error : option ErrorValue;
  generation : nat;
}.

(** Modelled from the spec: the state of a freshly mounted hook, before
    its first call starts. *)
Definition idle : FetchState :=
  {| data := JsNull; loading := false; error := None; generation := 0 |}.

(** Modelled from the spec: a call starts (mount, trigger change or
    [refetch]); the result is the new state and the captured
    generation [g]. *)
Definition start (s : FetchState) : FetchState * nat :=
  let g := S (generation s) in
  ({| data := data s; loading := true; error := None; generation := g |},
   g).

(** Modelled from the spec: the producer of the call that captured [g]
    resolves with [result]. *)
Definition settle (g : nat) (result : Envelope.t) (s : FetchState)
  : FetchState :=
  if Nat.eqb (generation s) g then
    {| data := Envelope.data result; loading := false;
       error := Envelope.error result; generation := generation s |}
  else s.

(** Modelled from the spec: what happens to one hook instance over
    time. A resolution names its call by the generation that the call
    captured when it started. *)
Inductive Action : Type :=
  | Start
  | Resolve (call : nat) (result : Envelope.t).

(** Modelled from the spec: the effect of one action on the state. *)
Definition step (s : FetchState) (a : Action) : FetchState :=
  match a with
  | Start => fst (start s)
  | Resolve call result => settle call result s
  end.

(** Modelled from the spec: the state after a sequence of actions. *)
Definition run (actions : list Action) (s : FetchState) : FetchState :=
  fold_left step actions s.
End useApi.

(** ** Vocabulary of the statements *)

(** A call to the request wrapper: [apiRequest] itself or one of the
    helpers of [api]. *)
Inductive WrapperCall : Type :=
  | CallApiRequest (method url : string) (data : JsValue)
      (options : list (string * JsValue))
  | CallGet (url : string) (options : list (string * JsValue))
  | CallPost (url : string) (data : JsValue)
      (options : list (string * JsValue))
  | CallPut (url : string) (data : JsValue)
      (options : list (string * JsValue))
  | CallPatch (url : string) (data : JsValue)
      (options : list (string * JsValue))
  | CallDelete (url : string) (options : list (string * JsValue)).

Definition run_call (w : World) (c : WrapperCall) : Async Envelope.t :=
  match c with
  | CallApiRequest method url data options =>
      apiRequest w method url data options
  | CallGet url options => api.get w url options
  | CallPost url data options => api.post w url data options
  | CallPut url data options => api.put w url data options
  | CallPatch url data options => api.patch w url data options
  | CallDelete url options => api.delete w url options
  end.

(** The request configuration the call hands to axios. *)
Definition request_of (c : WrapperCall) : AxiosRequestConfig.t :=
  match c with
  | CallApiRequest method url data options =>
      AxiosRequestConfig.mk method url (default_param data JsNull) options
  | CallGet url options => AxiosRequestConfig.mk "GET" url JsNull options
  | CallPost url data options =>
      AxiosRequestConfig.mk "POST" url (default_param data JsNull) options
  | CallPut url data options =>
      AxiosRequestConfig.mk "PUT" url (default_param data JsNull) options
  | CallPatch url data options =>
      AxiosRequestConfig.mk "PATCH" url (default_param data JsNull) options
  | CallDelete url options =>
      AxiosRequestConfig.mk "DELETE" url JsNull options
  end.

(** Exactly one of [data] and [error] is non-null. *)
Definition exactly_one_non_null (e : Envelope.t) : Prop :=
  (Envelope.data e <> JsNull /\ Envelope.error e = None) \/
  (Envelope.data e = JsNull /\ Envelope.error e <> None).

(** The error axios rejects with when [ms] milliseconds elapse without a
    response: code ECONNABORTED and no response. *)
Definition timeout_error (ms : Z) (config : AxiosRequestConfig.t)
  : AxiosError.t :=
  {| AxiosError.message := "timeout of " +:+ pretty ms +:+ "ms exceeded";
     AxiosError.code := Some "ECONNABORTED";
     AxiosError.response := None;
     AxiosError.config := Some config |}.

(** [v.name] where it cannot throw. *)
Definition prop (name : string) (v : JsValue) : JsValue :=
  match v with
  | JsObject props => lookup_prop name props
  | _ => JsUndefined
  end.

(** The sort key of the specification: the business count of a
    territory, a missing count being zero. *)
Definition business_count (t : JsValue) : Z :=
  match prop "business_count" t with
  | JsNumber n => n
  | _ => 0%Z
  end.

(** A territory record: an object whose [business_count] is a number or
    is missing. *)
Definition is_territory (t : JsValue) : bool :=
  match t with
  | JsObject props =>
      match lookup_prop "business_count" props with
      | JsNumber _ | JsUndefined | JsNull => true
      | _ => false
      end
  | _ => false
  end.

(** [a] may come before [b] in descending order of the key. *)
Definition desc (a b : JsValue) : Prop :=
  (business_count b <= business_count a)%Z.

(** The territory [t] has the count [k]. *)
Definition has_count (k : Z) (t : JsValue) : bool :=
  (business_count t =? k)%Z.

(** Stable insertion by descending key, the specification's sort. *)
Fixpoint insert_desc (x : JsValue) (l : list JsValue) : list JsValue :=
  match l with
  | [] => [x]
  | y :: ys =>
      if (business_count y <=? business_count x)%Z then x :: y :: ys
      else y :: insert_desc x ys
  end.

Fixpoint sort_desc (l : list JsValue) : list JsValue :=
  match l with
  | [] => []
  | x :: xs => insert_desc x (sort_desc xs)
  end.

(** A business record of the bulk export: an object whose three
    grouping fields hold scalars (or are missing). *)
Definition is_flat_record (rec : JsValue) : bool :=
  match rec with
  | JsObject props =>
      scalar (lookup_prop "zip_code" props)
      && scalar (lookup_prop "blockgroup" props)
      && scalar (lookup_prop "city" props)
  | _ => false
  end.

(** One turn of the loop of [getStats] on a record whose fields can be
    read. *)
Definition count_fields (acc : Counters) (rec : JsValue) : Counters :=
  {| totalBusinesses := (totalBusinesses acc + 1)%Z;
     zips := add_if_truthy (prop "zip_code" rec) (zips acc);
     blockgroups := add_if_truthy (prop "blockgroup" rec) (blockgroups acc);
     cities := add_if_truthy (prop "city" rec) (cities acc) |}.

(** The set built by adding the truthy values of [vals] to [s], in
    order. *)
Definition collect (vals : list JsValue) (s : JsSet.t) : JsSet.t :=
  fold_left (fun s v => add_if_truthy v s) vals s.

(** [n] is the number of distinct values that satisfy [P]. *)
Definition cardinality_of (P : JsValue -> Prop) (n : Z) : Prop :=
  exists vals : list JsValue,
    NoDup vals /\ (forall v, In v vals <-> P v) /\ n = Z.of_nat (length vals).

(** The field [name] has the value [v] in some record of [records]. *)
Definition field_value (name : string) (records : list JsValue)
  (v : JsValue) : Prop :=
  exists rec, In rec records /\ prop name rec = v.

(** The statistics object of the derived strategy. *)
Definition stats_object (total blockGroups cities zipcodes : Z)
  (lastUpdated : string) : JsValue :=
  JsObject [("totalBusinesses", JsNumber total);
            ("totalBlockGroups", JsNumber blockGroups);
            ("totalCities", JsNumber cities);
            ("totalZipcodes", JsNumber zipcodes);
            ("graphNodes", JsNull);
            ("graphRelationships", JsNull);
            ("lastUpdated", JsString lastUpdated)].

(** The territory-metrics object. *)
Definition metrics_object (groupBy summary : JsValue) (territories : loc)
  : JsValue :=
  JsObject [("groupBy", groupBy); ("summary", summary);
            ("territories", JsArray territories)].

(** A world in which every request and every fetch is answered by
    [answer] and [fetched]. *)
Definition world_of (answer : AxiosResponse.t + AxiosError.t)
  (fetched : FetchOutcome) : World :=
  {| adapter := fun _ => answer;
     fetch_outcome := fun _ => fetched;
     now_iso := "2024-02-01T00:00:00.000Z";
     coerce_number := fun _ => None |}.

(** ** Concrete worlds and heaps used below *)

(** A server that answers 200 with the JSON body [null]. *)
Definition null_payload_world : World :=
  world_of
    (inl (AxiosResponse.mk 200 "OK" JsNull
            (AxiosRequestConfig.mk "GET" "/api/tables" JsNull [])))
    (FetchRejected (JsError "TypeError" "Failed to fetch")).

(** A server that answers 200 with an empty list, the array object at
    location 0. *)
Definition empty_list_world : World :=
  world_of
    (inl (AxiosResponse.mk 200 "OK" (JsArray 0)
            (AxiosRequestConfig.mk "POST" "/api/tables" JsNull [])))
    (FetchRejected (JsError "TypeError" "Failed to fetch")).

(** A server that answers every request with status 500. *)
Definition failing_world : World :=
  world_of
    (inr {| AxiosError.message := "Request failed with status code 500";
            AxiosError.code := Some "ERR_BAD_RESPONSE";
            AxiosError.response :=
              Some (AxiosResponse.mk 500 "Internal Server Error"
                      (JsString "")
                      (AxiosRequestConfig.mk "GET" "/api/tables" JsNull []));
            AxiosError.config :=
              Some (AxiosRequestConfig.mk "GET" "/api/tables" JsNull []) |})
    (FetchResolved (FetchResponse.mk 500
                      (JsonRejected (JsError "SyntaxError" "Unexpected end of JSON input")))).

(** A static-file server that answers every fetch with status 200 and
    the parsed body [payload]; the REST backend is unreachable. *)
Definition static_world (payload : JsValue) : World :=
  world_of
    (inr {| AxiosError.message := "Network Error";
            AxiosError.code := Some "ERR_NETWORK";
            AxiosError.response := None;
            AxiosError.config := None |})
    (FetchResolved (FetchResponse.mk 200 (JsonParsed payload))).

Definition territory (id : string) (count : JsValue) : JsValue :=
  JsObject [("territory_id", JsString id); ("business_count", count)].

(** Territories with the counts 5, 5, 10, 0, in the array at location 0
    of [counts_heap]. *)
Definition counts_heap : Heap :=
  [[territory "92101" (JsNumber 5); territory "92102" (JsNumber 5);
    territory "92103" (JsNumber 10); territory "92104" (JsNumber 0)]].

Definition counts_payload : JsValue :=
  JsObject [("group_by", JsString "zip_code");
            ("summary", JsObject [("total_territories", JsNumber 4)]);
            ("territories", JsArray 0)].

(** A payload without a territories array, an empty group_by and no
    summary. *)
Definition bare_payload : JsValue :=
  JsObject [("group_by", JsString ""); ("territories", JsNull)].

(** The three records of the worked example of the specification, in the
    array at location 0. *)
Definition example_records : Heap :=
  [[JsObject [("zip_code", JsString "A"); ("city", JsString "X")];
    JsObject [("zip_code", JsString "A"); ("city", JsString "Y")];
    JsObject [("zip_code", JsString "B"); ("city", JsString "X")]]].

(** One record whose zip_code is present and empty. *)
Definition blank_zip_records : Heap :=
  [[JsObject [("zip_code", JsString ""); ("city", JsString "X")]]].

(** The action starts a call. *)
Definition is_start (a : useApi.Action) : bool :=
  match a with useApi.Start => true | useApi.Resolve _ _ => false end.

(** The action resolves the call that captured generation [g]. *)
Definition resolves (g : nat) (a : useApi.Action) : bool :=
  match a with
  | useApi.Start => false
  | useApi.Resolve call _ => Nat.eqb call g
  end.

(** The settled state that shows [result], at generation [g]. *)
Definition settled (g : nat) (result : Envelope.t) : useApi.FetchState :=
  {| useApi.data := Envelope.data result;
     useApi.loading := false;
     useApi.error := Envelope.error result;
     useApi.generation := g |}.

(** Two results that differ, for calls A and B. *)
Definition result_A : Envelope.t := Envelope.mk (JsString "A") None.
Definition result_B : Envelope.t :=
  Envelope.mk JsNull (Some (JsError "Error" "B failed")).

(** A static-file server that answers 200 with a body that is not JSON
    (an HTML page); the REST backend is unreachable. *)
Definition unparsable_world : World :=
  world_of
    (inr {| AxiosError.message := "Network Error";
            AxiosError.code := Some "ERR_NETWORK";
            AxiosError.response := None;
            AxiosError.config := None |})
    (FetchResolved
       (FetchResponse.mk 200
          (JsonRejected (JsError "SyntaxError" "Unexpected token <")))).

(** ** App.jsx: what the sections show

    A component is a function of the state its hooks hand it; the
    result says which of its returns is taken and with which computed
    values. A render that throws is an abrupt completion. *)

(** [v?.name]. *)
Definition optional_prop (name : string) (v : JsValue) : JsValue :=
  match v with
  | JsNull | JsUndefined => JsUndefined
  | _ => prop name v
  end.

(** The left operand of [??] is [null] or [undefined]. *)
Definition nullish (v : JsValue) : bool :=
  match v with
  | JsNull | JsUndefined => true
  | _ => false
  end.

(** [v.slice(start, stop)] for non-negative bounds: a new array, a
    substring, or a TypeError where [slice] is not a method. *)
Definition slice (v : JsValue) (start stop : nat) : Async JsValue :=
  match v with
  | JsArray r =>
      let* items := read_array r in
      let* r' := new_array (take (stop - start) (drop start items)) in
      ret (JsArray r')
  | JsString s => ret (JsString (substring start (stop - start) s))
  | _ => throw (JsError "TypeError" "slice is not a function")
  end.

(** [rows.map((t) => ... t.territory_id ...)]: rendering a row reads
    the fields of [t], which throws when [t] is [null]. The formatting
    of the cells ([formatNumber], [toFixed]) and their placement as
    children are not modelled; statements about a row that is drawn are
    made for rows that satisfy [is_row], whose cells these steps
    accept. *)
Definition render_rows (rows : loc) : Async unit :=
  let* items := read_array rows in
  for_of (fun _ t => let* _ := get_prop "territory_id" t in ret tt) items tt.

(** What the dashboard shows below its cards about territories. *)
Inductive TerritoryBlock : Type :=
  | TerritoryLoading
  | TerritoryUnavailable
  | TopTerritories (rows : loc)
  | NoTerritoryBlock.

Inductive DashboardView : Type :=
  | DashboardSpinner
  | DashboardError (text : string)
  | DashboardContent (stats : JsValue) (block : TerritoryBlock).

(** [Dashboard]: the two early returns, then [territories],
    [topTerritories] and the three conditional blocks. The stat cards
    and the footer, which format fields of [stats], are not modelled;
    statements about a dashboard that is drawn take [stats] from
    [getStats], whose numbers and date the formatters accept. *)
Definition Dashboard (stats : JsValue) (statsLoading : bool)
  (statsError : option ErrorValue) (territoryData : JsValue)
  (territoryLoading : bool) (territoryError : option ErrorValue)
  : Async DashboardView :=
  if statsLoading then ret DashboardSpinner
  else if error_truthy statsError then
    ret (DashboardError (getErrorMessage statsError))
  else
    let field := optional_prop "territories" territoryData in
    let* territories :=
      if nullish field then (let* r := new_array [] in ret (JsArray r))
      else ret field in
    let* topTerritories := slice territories 0 10 in
    if territoryLoading then ret (DashboardContent stats TerritoryLoading)
    else if error_truthy territoryError then
      ret (DashboardContent stats TerritoryUnavailable)
    else
      match topTerritories with
      | JsArray rows =>
          let* items := read_array rows in
          if (0 <? length items)%nat then
            do render_rows rows in
            ret (DashboardContent stats (TopTerritories rows))
          else ret (DashboardContent stats NoTerritoryBlock)
      | JsString s =>
          if (0 <? String.length s)%nat then
            throw (JsError "TypeError" "map is not a function")
          else ret (DashboardContent stats NoTerritoryBlock)
      | _ => ret (DashboardContent stats NoTerritoryBlock)
      end.

Inductive TerritoryView : Type :=
  | TerritorySpinner
  | TerritoryError (text : string)
  | TerritoryEmpty
  | TerritoryTable (group territory_count : JsValue) (rows : loc).

(** [v.length] of an array or a string. *)
Definition js_length (v : JsValue) : Async JsValue :=
  match v with
  | JsArray r =>
      let* items := read_array r in
      ret (JsNumber (Z.of_nat (length items)))
  | JsString s => ret (JsNumber (Z.of_nat (String.length s)))
  | _ => ret JsUndefined
  end.

(** [v === 0]. *)
Definition is_zero (v : JsValue) : bool :=
  match v with
  | JsNumber n => (n =? 0)%Z
  | _ => false
  end.

(** [TerritoryMetricsSection]: spinner, error panel, the empty state, or
    the table, of which the heading's group, the territory count of the
    first card and the rows are kept. The formatting of the two cards
    and the sum of the second are not modelled; statements about a table
    that is drawn are made for payloads that satisfy [is_summary] and
    rows that satisfy [is_row]. *)
Definition TerritoryMetricsSection (territoryData : JsValue)
  (loading : bool) (error : option ErrorValue) : Async TerritoryView :=
  if loading then ret TerritorySpinner
  else if error_truthy error then
    ret (TerritoryError (getErrorMessage error))
  else if negb (truthy territoryData) then ret TerritoryEmpty
  else
    let territories := prop "territories" territoryData in
    if negb (truthy territories) then ret TerritoryEmpty
    else
      let* len := js_length territories in
      if is_zero len then ret TerritoryEmpty
      else
        let summary := prop "summary" territoryData in
        let group :=
          js_or (optional_prop "group_by" summary)
            (prop "groupBy" territoryData) in
        let count := optional_prop "territory_count" summary in
        let territory_count := if nullish count then len else count in
        match territories with
        | JsArray rows =>
            do render_rows rows in
            ret (TerritoryTable group territory_count rows)
        | _ => throw (JsError "TypeError" "map is not a function")
        end.

(** The navigation of the ten-section [App]. *)
Module App.
Definition NAV_SECTIONS : list (string * string * string) :=
  [ ("dashboard", "Dashboard", "OV");
    ("territories", "Territories", "TZ");
    ("database", "Data Model", "DB");
    ("docs", "Docs", "DOC");
    ("exports", "Exports", "EX");
    ("notebooks", "Notebooks", "NB");
    ("scripts", "Scripts", "ETL");
    ("aiFranchise", "AI Franchise", "AI");
    ("neo4j", "Neo4j & API", "G");
    ("gettingStarted", "Getting Started", "?") ].

Inductive Section : Type :=
  | DashboardSection
  | TerritoryMetrics
  | DatabaseSection
  | DocsSection
  | ExportsSection
  | NotebooksSection
  | ScriptsSection
  | AIFranchiseSection
  | Neo4jSection
  | GettingStartedSection.

(** The component chosen by the [switch] and whether the [default]
    branch chose it. *)
Definition renderSection (active : string) : Section * bool :=
  if String.eqb active "dashboard" then (DashboardSection, false)
  else if String.eqb active "territories" then (TerritoryMetrics, false)
  else if String.eqb active "database" then (DatabaseSection, false)
  else if String.eqb active "docs" then (DocsSection, false)
  else if String.eqb active "exports" then (ExportsSection, false)
  else if String.eqb active "notebooks" then (NotebooksSection, false)
  else if String.eqb active "scripts" then (ScriptsSection, false)
  else if String.eqb active "aiFranchise" then (AIFranchiseSection, false)
  else if String.eqb active "neo4j" then (Neo4jSection, false)
  else if String.eqb active "gettingStarted" then
    (GettingStartedSection, false)
  else (DashboardSection, true).

(** The state of [App] that navigation touches, with the timers that
    [handleNavigation] has started and that have not fired yet, oldest
    first; each holds the section it will activate. *)
Record State := {
  active : string;
  isTransitioning : bool;
  timers : list string;
}.

Definition initial : State :=
  {| active := "dashboard"; isTransitioning := false; timers := [] |}.

Definition handleNavigation (sectionId : string) (s : State) : State :=
  if String.eqb sectionId (active s) then s
  else
    {| active := active s; isTransitioning := true;
       timers := timers s ++ [sectionId] |}.

(** The oldest timer fires: all timers have the same delay of 150 ms. *)
Definition timeout (s : State) : State :=
  match timers s with
  | [] => s
  | sectionId :: rest =>
      {| active := sectionId; isTransitioning := false; timers := rest |}
  end.

(** The user clicks the [n]-th navigation button, or a timer fires. *)
Inductive Event : Type :=
  | Click (n : nat)
  | TimerFires.

Definition step (s : State) (ev : Event) : State :=
  match ev with
  | Click n =>
      match NAV_SECTIONS !! n with
      | Some (id, _, _) => handleNavigation id s
      | None => s
      end
  | TimerFires => timeout s
  end.

Definition run (events : list Event) : State := fold_left step events initial.
End App.

(** The identifiers of the navigation entries. *)
Definition nav_ids : list string :=
  map (fun item => fst (fst item)) App.NAV_SECTIONS.

(** The active section and the sections of the pending timers are
    navigation entries. *)
Definition nav_invariant (s : App.State) : Prop :=
  In (App.active s) nav_ids /\
  Forall (fun id => In id nav_ids) (App.timers s).

(** A 200 answer of the static-file server whose body is the JSON text
    [null]. *)
Definition null_body_world : World := static_world JsNull.

(** [v?.[0]?.name], the name of the first top sector of a row. *)
Definition first_name (h : Heap) (v : JsValue) : JsValue :=
  optional_prop "name"
    match v with
    | JsArray r =>
        match heap_read h r with
        | first :: _ => first
        | [] => JsUndefined
        end
    | JsString (String c _) => JsString (String c EmptyString)
    | JsObject props => lookup_prop "0" props
    | _ => JsUndefined
    end.

(** A territory record whose row both tables can draw: besides the
    count, the values placed in cells as they are (the identifier and
    the two top names) and the values handed to [formatNumber] are
    scalars, so React accepts them as children and [toLocaleString]
    is the built-in method. The arrays of top sectors are read in the
    heap [h] in which the payload was parsed. *)
Definition is_row (h : Heap) (t : JsValue) : bool :=
  is_territory t
  && scalar (prop "territory_id" t)
  && scalar (prop "franchise_count" t)
  && scalar (prop "independent_count" t)
  && scalar (first_name h (prop "top_sectors" t))
  && scalar (first_name h (prop "top_subsectors" t)).

(** A payload whose [group_by] and whose summary's [group_by],
    [territory_count] and [total_businesses] are scalars: the heading
    and the two cards of the territory section can be drawn. *)
Definition is_summary (props : list (string * JsValue)) : bool :=
  let summary := js_or (lookup_prop "summary" props) JsNull in
  scalar (lookup_prop "group_by" props)
  && scalar (optional_prop "group_by" summary)
  && scalar (optional_prop "territory_count" summary)
  && scalar (optional_prop "total_businesses" summary).

(** A territory with every field of the aggregate file, its top sectors
    in the array at location 1. *)
Definition full_territory (id : string) (count : Z) : JsValue :=
  JsObject [("territory_id", JsString id);
            ("business_count", JsNumber count);
            ("franchise_count", JsNumber 1);
            ("independent_count", JsNumber (count - 1));
            ("pct_franchise", JsNumber 0);
            ("avg_rating_mean", JsNumber 4);
            ("top_sectors", JsArray 1);
            ("top_subsectors", JsArray 1)].

(** Two full territories at location 0, their shared list of top
    sectors at location 1. *)
Definition full_heap : Heap :=
  [[full_territory "92101" 5; full_territory "92103" 10];
   [JsObject [("name", JsString "Retail"); ("count", JsNumber 3)]]].

Definition full_payload : JsValue :=
  JsObject [("group_by", JsString "zip_code");
            ("summary", JsObject [("territory_count", JsNumber 2)]);
            ("territories", JsArray 0)].

(** * Properties *)

(** ** The request wrapper *)

Lemma apiRequest_run (w : World) (method url : string) (data : JsValue)
  (options : list (string * JsValue)) (h : Heap) :
  apiRequest w method url data options h =
  (Normal
     match adapter w (AxiosRequestConfig.mk method url
                        (default_param data JsNull) options) with
     | inl response => Envelope.mk (AxiosResponse.data response) None
     | inr error =>
         Envelope.mk JsNull (Some (EnhancedError (enhancedError error)))
     end,
   h, [EvHttp method url]).
Proof.
  unfold apiRequest, try_catch, apiClient, bind, emit; cbn.
  destruct (adapter w _); reflexivity.
Qed.

Lemma run_call_run (w : World) (c : WrapperCall) (h : Heap) :
  run_call w c h =
  (Normal
     match adapter w (request_of c) with
     | inl response => Envelope.mk (AxiosResponse.data response) None
     | inr error =>
         Envelope.mk JsNull (Some (EnhancedError (enhancedError error)))
     end,
   h,
   [EvHttp (AxiosRequestConfig.method (request_of c))
           (AxiosRequestConfig.url (request_of c))]).
Proof.
  destruct c;
    unfold run_call, request_of, api.get, api.post, api.put, api.patch,
      api.delete;
    rewrite apiRequest_run; reflexivity.
Qed.

(** C1, as stated, fails: when the server answers with the payload
    [null], the wrapper returns an envelope whose [data] and [error] are
    both null. *)
Lemma apiRequest_null_payload_both_null :
  exists e,
    completion (run_call null_payload_world (CallGet "/api/tables" []) [])
    = Normal e /\
    Envelope.data e = JsNull /\ Envelope.error e = None /\
    ~ exactly_one_non_null e.
Proof.
  eexists. split; [reflexivity|]. cbn.
  split; [reflexivity|]. split; [reflexivity|].
  unfold exactly_one_non_null; cbn. intros [[Hd _]|[_ He]]; congruence.
Qed.

(** C1, amended: every call to the request wrapper (apiRequest or a verb
    helper) resolves with an envelope; when the transport succeeds, data
    is the response payload and error is null; when it fails, data is
    null and error is the normalized error; the two fields are never
    both non-null, and exactly one of them is non-null whenever the
    transport failed or the response payload is not null. *)
Theorem apiRequest_envelope (w : World) (c : WrapperCall) (h : Heap) :
  exists e,
    completion (run_call w c h) = Normal e /\
    match adapter w (request_of c) with
    | inl response =>
        Envelope.data e = AxiosResponse.data response /\
        Envelope.error e = None /\
        (AxiosResponse.data response <> JsNull -> exactly_one_non_null e)
    | inr error =>
        Envelope.data e = JsNull /\
        Envelope.error e = Some (EnhancedError (enhancedError error)) /\
        exactly_one_non_null e
    end /\
    ~ (Envelope.data e <> JsNull /\ Envelope.error e <> None).
Proof.
  rewrite run_call_run. eexists. split; [reflexivity|].
  destruct (adapter w (request_of c)) as [response|error]; cbn.
  - split; [|intros [_ He]; congruence].
    repeat split. intros Hd. left. split; [exact Hd|reflexivity].
  - split; [|intros [Hd _]; congruence].
    repeat split. right. split; [reflexivity|discriminate].
Qed.

Lemma apiRequest_envelope_witness :
  exists e,
    completion
      (run_call empty_list_world (CallPost "/api/tables" JsUndefined [])
         [[]])
    = Normal e /\
    exactly_one_non_null e.
Proof.
  destruct (apiRequest_envelope empty_list_world
              (CallPost "/api/tables" JsUndefined []) [[]])
    as [e [Hrun [Hcase _]]].
  exists e. split; [exact Hrun|].
  cbn in Hcase. destruct Hcase as [_ [_ Hone]].
  apply Hone. discriminate.
Defined.

(** ** The response interceptor *)


(** C2: the interceptor classifies a timeout (axios code ECONNABORTED,
    no response) as isTimeout = true and, against the claim, also as
    isNetworkError = true, with status undefined; the error panel then
    shows the connection text and never the timeout text. *)
Theorem enhancedError_timeout_is_network_error (ms : Z)
  (config : AxiosRequestConfig.t) :
  let e := enhancedError (timeout_error ms config) in
  NormalizedError.isTimeout e = true /\
  NormalizedError.isNetworkError e = true /\
  NormalizedError.status e = None /\
  getErrorMessage (Some (EnhancedError e))
  = "Unable to connect to the server. Please check your connection.".
Proof. repeat split. Qed.

(** ** The list resources *)

Ltac run_list_method :=
  unfold dataService.getTables, dataService.getExports,
    dataService.getNotebooks, dataService.getScripts,
    directDataService.getStats, dataService.healthCheck,
    mockApi.getTables, mockApi.getExports, mockApi.getNotebooks,
    mockApi.getScripts, mockApi.getStats, delay, api.get, bind, emit, ret;
  try rewrite !apiRequest_run.

(** The list methods in mock mode. *)
Lemma list_methods_mock (w : World) (h : Heap) :
  dataService.getTables w true h
  = (Normal (Envelope.mk mockData.tables None), h, [EvDelay 500]) /\
  dataService.getExports w true h
  = (Normal (Envelope.mk mockData.exports None), h, [EvDelay 500]) /\
  dataService.getNotebooks w true h
  = (Normal (Envelope.mk mockData.notebooks None), h, [EvDelay 500]) /\
  dataService.getScripts w true h
  = (Normal (Envelope.mk mockData.scripts None), h, [EvDelay 500]) /\
  directDataService.getStats w true h
  = (Normal (Envelope.mk mockData.stats None), h, [EvDelay 500]).
Proof. repeat split. Qed.




(** ** Derived statistics: the outcome of every execution *)

Lemma getStats_shape (w : World) (useMock : bool) (h : Heap) :
  exists d h' t,
    dataService.getStats w useMock h
    = (Normal (Envelope.mk d None), h',
       EvFetch "/data/ca_businesses_standardized.json" :: t).
Proof.
  unfold dataService.getStats, try_catch, bind, fetch, emit,
    mockApi.getStats, delay, ret, throw; cbn.
  destruct (fetch_outcome w _) as [response|e]; cbn; [|eauto].
  destruct (FetchResponse.ok response); cbn; [|eauto].
  destruct (json response h) as [[[records|e] h1] t1]; cbn; [|eauto].
  destruct (iterate records h1) as [[[items|e] h2] t2]; cbn; [|eauto].
  destruct (for_of count_record items _ h2) as [[[acc|e] h3] t3]; cbn; eauto.
Qed.

(** C9: the derived-strategy getStats resolves on every execution with
    error = null; it starts the fetch of the bulk file first whatever the
    mock-mode flag is; and when the fetch is rejected, the status is not
    2xx, or the body does not parse, its data is the fixture
    statistics. *)
Theorem getStats_never_surfaces_error (w : World) (useMock : bool)
  (h : Heap) :
  exists e,
    completion (dataService.getStats w useMock h) = Normal e /\
    Envelope.error e = None /\
    head (trace (dataService.getStats w useMock h))
    = Some (EvFetch "/data/ca_businesses_standardized.json") /\
    match fetch_outcome w "/data/ca_businesses_standardized.json" with
    | FetchRejected _ => Envelope.data e = mockData.stats
    | FetchResolved response =>
        if FetchResponse.ok response then
          match FetchResponse.body response with
          | JsonRejected _ => Envelope.data e = mockData.stats
          | JsonParsed _ => True
          end
        else Envelope.data e = mockData.stats
    end.
Proof.
  destruct (getStats_shape w useMock h) as (d & h' & t & Hrun).
  exists (Envelope.mk d None). rewrite Hrun. cbn.
  repeat split.
  revert Hrun.
  unfold dataService.getStats, try_catch, bind, fetch, emit,
    mockApi.getStats, delay, ret, throw, json; cbn.
  destruct (fetch_outcome w _) as [response|e]; cbn; [|congruence].
  destruct (FetchResponse.ok response); cbn; [|congruence].
  destruct (FetchResponse.body response); cbn; [trivial|congruence].
Qed.

(** ** Territory metrics: failures are surfaced *)

(** The three ways in which the fetch of the territory file fails. *)
Lemma getTerritoryMetrics_failure_cases (w : World) (useMock : bool)
  (h : Heap) :
  match
    fetch_outcome w "/data/ca_businesses_standardized_by_zip_code.json"
  with
  | FetchRejected e =>
      completion (dataService.getTerritoryMetrics w useMock h)
      = Normal (Envelope.mk JsNull (Some e))
  | FetchResolved response =>
      if FetchResponse.ok response then
        match FetchResponse.body response with
        | JsonRejected e =>
            completion (dataService.getTerritoryMetrics w useMock h)
            = Normal (Envelope.mk JsNull (Some e))
        | JsonParsed _ => True
        end
      else
        completion (dataService.getTerritoryMetrics w useMock h)
        = Normal
            (Envelope.mk JsNull
               (Some (JsError "Error"
                        ("Failed to load territory metrics: "
                         +:+ pretty (FetchResponse.status response)))))
  end.
Proof.
  unfold dataService.getTerritoryMetrics, try_catch, bind, fetch, emit,
    ret, throw, json; cbn.
  destruct (fetch_outcome w _) as [response|e]; cbn; [|reflexivity].
  destruct (FetchResponse.ok response); cbn; [|reflexivity].
  destruct (FetchResponse.body response); cbn; [trivial|reflexivity].
Qed.

(** C6: when the fetch of the territory file resolves with a status
    outside 200-299, or with a 2xx status and a body that does not parse
    as JSON, getTerritoryMetrics returns data = null and the error that
    was raised, which is not null, whatever the mock-mode flag is; no
    fixture is substituted. *)
Theorem getTerritoryMetrics_surfaces_failure (w : World) (useMock : bool)
  (h : Heap) (response : FetchResponse.t) :
  fetch_outcome w "/data/ca_businesses_standardized_by_zip_code.json"
  = FetchResolved response ->
  ((FetchResponse.status response < 200 \/
    299 < FetchResponse.status response)%Z ->
   completion (dataService.getTerritoryMetrics w useMock h)
   = Normal
       (Envelope.mk JsNull
          (Some (JsError "Error"
                   ("Failed to load territory metrics: "
                    +:+ pretty (FetchResponse.status response)))))) /\
  (forall e,
      (200 <= FetchResponse.status response <= 299)%Z ->
      FetchResponse.body response = JsonRejected e ->
      completion (dataService.getTerritoryMetrics w useMock h)
      = Normal (Envelope.mk JsNull (Some e))).
Proof.
  intros Hfetch.
  pose proof (getTerritoryMetrics_failure_cases w useMock h) as Hcases.
  rewrite Hfetch in Hcases. split.
  - intros Hstatus.
    assert (Hok : FetchResponse.ok response = false).
    { unfold FetchResponse.ok. lia. }
    rewrite Hok in Hcases. exact Hcases.
  - intros e Hstatus Hbody.
    assert (Hok : FetchResponse.ok response = true).
    { unfold FetchResponse.ok. lia. }
    rewrite Hok, Hbody in Hcases. exact Hcases.
Qed.

Lemma getTerritoryMetrics_surfaces_failure_witness :
  completion (dataService.getTerritoryMetrics failing_world true [])
  = Normal
      (Envelope.mk JsNull
         (Some (JsError "Error" "Failed to load territory metrics: 500"))) /\
  completion
    (dataService.getTerritoryMetrics unparsable_world false [])
  = Normal
      (Envelope.mk JsNull
         (Some (JsError "SyntaxError" "Unexpected token <"))).
Proof.
  split.
  - apply (proj1 (getTerritoryMetrics_surfaces_failure failing_world true []
                    _ eq_refl)).
    cbn. lia.
  - eapply (proj2 (getTerritoryMetrics_surfaces_failure unparsable_world
                     false [] _ eq_refl)).
    + cbn. lia.
    + reflexivity.
Defined.

(** ** Territory metrics: the sort *)

Lemma insert_desc_perm (x : JsValue) (l : list JsValue) :
  Permutation (x :: l) (insert_desc x l).
Proof.
  induction l as [|y ys IH]; cbn.
  - reflexivity.
  - destruct (business_count y <=? business_count x)%Z.
    + reflexivity.
    + rewrite perm_swap. apply perm_skip. exact IH.
Qed.

Lemma sort_desc_perm (l : list JsValue) : Permutation l (sort_desc l).
Proof.
  induction l as [|x xs IH]; cbn.
  - reflexivity.
  - rewrite <- insert_desc_perm. apply perm_skip. exact IH.
Qed.

Lemma insert_desc_hd (x a : JsValue) (l : list JsValue) :
  desc a x -> HdRel desc a l -> HdRel desc a (insert_desc x l).
Proof.
  intros Hax Hl. destruct l as [|y ys]; cbn.
  - constructor. exact Hax.
  - destruct (business_count y <=? business_count x)%Z.
    + constructor. exact Hax.
    + constructor. inversion Hl; assumption.
Qed.

Lemma insert_desc_sorted (x : JsValue) (l : list JsValue) :
  Sorted desc l -> Sorted desc (insert_desc x l).
Proof.
  induction 1 as [|y ys Hys IH Hhd]; cbn.
  - repeat constructor.
  - destruct (business_count y <=? business_count x)%Z eqn:Hle.
    + constructor; [constructor; assumption|].
      constructor. unfold desc. lia.
    + constructor; [exact IH|].
      apply insert_desc_hd; [unfold desc; lia | exact Hhd].
Qed.

Lemma sort_desc_sorted (l : list JsValue) : Sorted desc (sort_desc l).
Proof.
  induction l as [|x xs IH]; cbn.
  - constructor.
  - apply insert_desc_sorted. exact IH.
Qed.

Lemma sort_desc_strongly_sorted (l : list JsValue) :
  StronglySorted desc (sort_desc l).
Proof.
  apply Sorted_StronglySorted; [|apply sort_desc_sorted].
  intros a b c Hab Hbc. unfold desc in *. lia.
Qed.

(** Stability: among the territories with one and the same count, the
    order is that of the input. *)
Lemma insert_desc_stable (k : Z) (x : JsValue) (l : list JsValue) :
  List.filter (has_count k) (insert_desc x l)
  = List.filter (has_count k) (x :: l).
Proof.
  induction l as [|y ys IH]; cbn.
  - reflexivity.
  - destruct (business_count y <=? business_count x)%Z eqn:Hle.
    + reflexivity.
    + cbn in *. rewrite IH.
      assert (Hxy : has_count k x && has_count k y = false).
      { unfold has_count. lia. }
      destruct (has_count k x), (has_count k y);
        (discriminate || reflexivity).
Qed.

Lemma sort_desc_stable (k : Z) (l : list JsValue) :
  List.filter (has_count k) (sort_desc l) = List.filter (has_count k) l.
Proof.
  induction l as [|x xs IH]; cbn.
  - reflexivity.
  - rewrite insert_desc_stable. cbn. rewrite IH. reflexivity.
Qed.

(** The comparator on territory records is the difference of the keys,
    and it neither throws nor touches the heap. *)
Lemma by_business_count_run (w : World) (a b : JsValue) (h : Heap) :
  is_territory a = true -> is_territory b = true ->
  by_business_count w a b h
  = (Normal (Some (business_count b - business_count a)%Z), h, []).
Proof.
  destruct a as [| | | | | |pa]; try discriminate.
  destruct b as [| | | | | |pb]; try discriminate.
  unfold is_territory, by_business_count, business_count, prop, get_prop,
    bind, ret, js_sub, js_or.
  destruct (lookup_prop "business_count" pa) as [| | |na| | |];
    try discriminate;
    destruct (lookup_prop "business_count" pb) as [| | |nb| | |];
    try discriminate; intros _ _; cbn;
    try destruct (na =? 0)%Z eqn:Ha; try destruct (nb =? 0)%Z eqn:Hb; cbn;
    repeat f_equal; lia.
Qed.

Lemma insert_sorted_run (w : World) (x : JsValue) (l : list JsValue)
  (h : Heap) :
  is_territory x = true -> Forall (fun t => is_territory t = true) l ->
  insert_sorted (by_business_count w) x l h
  = (Normal (insert_desc x l), h, []).
Proof.
  intros Hx Hl. induction Hl as [|y ys Hy Hys IH]; cbn.
  - reflexivity.
  - unfold bind. rewrite by_business_count_run by assumption. cbn.
    destruct (business_count y - business_count x <=? 0)%Z eqn:Hc;
      destruct (business_count y <=? business_count x)%Z eqn:Hle;
      try lia.
    + reflexivity.
    + rewrite IH. reflexivity.
Qed.

Lemma sort_items_run (w : World) (l : list JsValue) (h : Heap) :
  Forall (fun t => is_territory t = true) l ->
  sort_items (by_business_count w) l h = (Normal (sort_desc l), h, []).
Proof.
  intros Hl. induction Hl as [|x xs Hx Hxs IH]; cbn.
  - reflexivity.
  - unfold bind. rewrite IH.
    rewrite insert_sorted_run; [reflexivity|exact Hx|].
    rewrite <- sort_desc_perm. exact Hxs.
Qed.

Lemma territories_defined (l : list JsValue) :
  Forall (fun t => is_territory t = true) l ->
  List.filter (fun v => negb (is_undefined v)) l = l /\
  List.filter is_undefined l = [].
Proof.
  induction 1 as [|x xs Hx Hxs [IH1 IH2]]; cbn.
  - split; reflexivity.
  - destruct x; try discriminate. cbn. rewrite IH1, IH2.
    split; reflexivity.
Qed.

Lemma array_sort_run (w : World) (r : loc) (h : Heap) :
  Forall (fun t => is_territory t = true) (heap_read h r) ->
  array_sort (by_business_count w) r h
  = (Normal tt, heap_write h r (sort_desc (heap_read h r)), []).
Proof.
  intros Hl. unfold array_sort, bind, read_array, write_array.
  destruct (territories_defined _ Hl) as [-> ->].
  rewrite sort_items_run by exact Hl. cbn.
  rewrite app_nil_r. reflexivity.
Qed.

(** After a successful fetch and parse, the method allocates the copy
    at the next free location, sorts it there, and builds the result. *)
Lemma getTerritoryMetrics_parsed (w : World) (useMock : bool) (h : Heap)
  (response : FetchResponse.t) (payload : JsValue) :
  fetch_outcome w "/data/ca_businesses_standardized_by_zip_code.json"
  = FetchResolved response ->
  FetchResponse.ok response = true ->
  FetchResponse.body response = JsonParsed payload ->
  payload <> JsNull -> payload <> JsUndefined ->
  let items :=
    match prop "territories" payload with
    | JsArray r => heap_read h r
    | _ => []
    end in
  let sorting := array_sort (by_business_count w) (length h) (h ++ [items]) in
  completion (dataService.getTerritoryMetrics w useMock h)
  = match completion sorting with
    | Normal _ =>
        Normal
          (Envelope.mk
             (metrics_object
                (js_or (prop "group_by" payload) (JsString "zip_code"))
                (js_or (prop "summary" payload) JsNull)
                (length h))
             None)
    | Throw e => Normal (Envelope.mk JsNull (Some e))
    end /\
  final_heap (dataService.getTerritoryMetrics w useMock h)
  = final_heap sorting.
Proof.
  intros Hfetch Hok Hbody Hnull Hundef items sorting.
  unfold dataService.getTerritoryMetrics, try_catch, bind, fetch, emit,
    json, completion, final_heap.
  rewrite Hfetch; cbn. rewrite Hok, Hbody; cbn.
  subst sorting items.
  destruct payload as [| | | | | |props]; try congruence; cbn;
    try (destruct (array_sort _ _ _) as [[[u|e] h'] t]; cbn;
         split; reflexivity).
  unfold spread, iterate, bind, new_array, read_array, heap_alloc.
  destruct (lookup_prop "territories" props); cbn;
    destruct (array_sort _ _ _) as [[[u|e] h'] t]; cbn; split; reflexivity.
Qed.

Lemma status_ok (response : FetchResponse.t) :
  (200 <= FetchResponse.status response <= 299)%Z ->
  FetchResponse.ok response = true.
Proof. unfold FetchResponse.ok. lia. Qed.

Lemma heap_read_fresh (h : Heap) (items sorted : list JsValue) :
  heap_read (heap_write (h ++ [items]) (length h) sorted) (length h)
  = sorted.
Proof.
  unfold heap_read, heap_write.
  rewrite list_lookup_insert_eq; [reflexivity|].
  rewrite length_app. cbn. lia.
Qed.

(** C4: when the territory file is fetched and its territories are
    records with a numeric or missing business_count, getTerritoryMetrics
    returns them sorted by business_count in descending order (a missing
    count being 0), as a permutation of the input in which territories of
    equal count keep their input order; for the counts [5, 5, 10, 0] the
    result is [10, 5, 5, 0] with the two 5s in input order. *)
Theorem getTerritoryMetrics_sorts_stably :
  (forall (w : World) (useMock : bool) (h : Heap)
      (response : FetchResponse.t) (props : list (string * JsValue))
      (r : loc),
      fetch_outcome w "/data/ca_businesses_standardized_by_zip_code.json"
      = FetchResolved response ->
      (200 <= FetchResponse.status response <= 299)%Z ->
      FetchResponse.body response = JsonParsed (JsObject props) ->
      lookup_prop "territories" props = JsArray r ->
      Forall (fun t => is_territory t = true) (heap_read h r) ->
      exists sorted,
        completion (dataService.getTerritoryMetrics w useMock h)
        = Normal
            (Envelope.mk
               (metrics_object
                  (js_or (lookup_prop "group_by" props)
                     (JsString "zip_code"))
                  (js_or (lookup_prop "summary" props) JsNull)
                  (length h))
               None) /\
        heap_read (final_heap (dataService.getTerritoryMetrics w useMock h))
          (length h) = sorted /\
        Permutation (heap_read h r) sorted /\
        StronglySorted desc sorted /\
        forall k,
          List.filter (has_count k) sorted
          = List.filter (has_count k) (heap_read h r)) /\
  (let run :=
     dataService.getTerritoryMetrics (static_world counts_payload) false
       counts_heap in
   completion run
   = Normal
       (Envelope.mk
          (metrics_object (JsString "zip_code")
             (JsObject [("total_territories", JsNumber 4)]) 1)
          None) /\
   heap_read (final_heap run) 1
   = [territory "92103" (JsNumber 10); territory "92101" (JsNumber 5);
      territory "92102" (JsNumber 5); territory "92104" (JsNumber 0)]).
Proof.
  split; [|split; reflexivity].
  intros w useMock h response props r Hfetch Hstatus Hbody Hfield Hall.
  destruct (getTerritoryMetrics_parsed w useMock h response (JsObject props)
              Hfetch (status_ok _ Hstatus) Hbody)
    as [Hc Hh]; [discriminate|discriminate|].
  cbn [prop] in Hc, Hh. rewrite Hfield in Hc, Hh.
  assert (Hread : heap_read (h ++ [heap_read h r]) (length h)
                  = heap_read h r).
  { unfold heap_read at 1. rewrite list_lookup_middle; reflexivity. }
  rewrite array_sort_run in Hc, Hh by (rewrite Hread; exact Hall).
  rewrite Hread in Hh. cbn in Hc, Hh.
  exists (sort_desc (heap_read h r)).
  split; [exact Hc|]. split.
  - rewrite Hh. apply heap_read_fresh.
  - split; [apply sort_desc_perm|].
    split; [apply sort_desc_strongly_sorted|].
    intros k. apply sort_desc_stable.
Qed.

Lemma getTerritoryMetrics_sorts_stably_witness :
  exists sorted,
    heap_read
      (final_heap
         (dataService.getTerritoryMetrics (static_world counts_payload)
            false counts_heap)) 1 = sorted /\
    Permutation (heap_read counts_heap 0) sorted /\
    StronglySorted desc sorted.
Proof.
  destruct (proj1 getTerritoryMetrics_sorts_stably
              (static_world counts_payload) false counts_heap
              (FetchResponse.mk 200 (JsonParsed counts_payload))
              [("group_by", JsString "zip_code");
               ("summary", JsObject [("total_territories", JsNumber 4)]);
               ("territories", JsArray 0)]
              0 eq_refl)
    as [sorted [_ [Hread [Hperm [Hsorted _]]]]].
  - cbn. lia.
  - reflexivity.
  - reflexivity.
  - repeat constructor.
  - exists sorted. split; [exact Hread|]. split; assumption.
Defined.

(** ** Territory metrics: the payload is left as it was *)

Lemma get_prop_heap (name : string) (v : JsValue) (h : Heap) :
  final_heap (get_prop name v h) = h.
Proof. destruct v; reflexivity. Qed.

Lemma by_business_count_heap (w : World) (a b : JsValue) (h : Heap) :
  final_heap (by_business_count w a b h) = h.
Proof.
  unfold by_business_count, bind.
  pose proof (get_prop_heap "business_count" b h) as Hb.
  destruct (get_prop "business_count" b h) as [[[bc|e] h1] t1];
    cbn in Hb; subst h1; [|reflexivity].
  pose proof (get_prop_heap "business_count" a h) as Ha.
  destruct (get_prop "business_count" a h) as [[[ac|e] h2] t2];
    cbn in Ha; subst h2; reflexivity.
Qed.

Lemma insert_sorted_heap (w : World) (x : JsValue) (l : list JsValue)
  (h : Heap) :
  final_heap (insert_sorted (by_business_count w) x l h) = h.
Proof.
  induction l as [|y ys IH]; cbn; [reflexivity|].
  unfold bind.
  pose proof (by_business_count_heap w x y h) as Hc.
  destruct (by_business_count w x y h) as [[[c|e] h1] t1];
    cbn in Hc; subst h1; [|reflexivity].
  destruct (before_or_equal c); [reflexivity|].
  destruct (insert_sorted (by_business_count w) x ys h)
    as [[[s|e] h1] t2]; cbn in *; subst h1; reflexivity.
Qed.

Lemma sort_items_heap (w : World) (l : list JsValue) (h : Heap) :
  final_heap (sort_items (by_business_count w) l h) = h.
Proof.
  induction l as [|x xs IH]; cbn; [reflexivity|].
  unfold bind.
  destruct (sort_items (by_business_count w) xs h) as [[[s|e] h1] t1];
    cbn in IH; subst h1; [|reflexivity].
  pose proof (insert_sorted_heap w x s h) as Hi.
  destruct (insert_sorted (by_business_count w) x s h)
    as [[c h2] t2]; cbn in *; exact Hi.
Qed.

(** Sorting the array at [r] changes no other array. *)
Lemma array_sort_heap (w : World) (r : loc) (h : Heap) :
  final_heap (array_sort (by_business_count w) r h) = h \/
  exists items,
    final_heap (array_sort (by_business_count w) r h)
    = heap_write h r items.
Proof.
  unfold array_sort, bind, read_array, write_array. cbn.
  match goal with
  | |- context [sort_items ?c ?l h] =>
      pose proof (sort_items_heap w l h) as Hs;
      destruct (sort_items c l h) as [[[s|e] h1] t1]
  end; cbn in Hs; subst h1; cbn.
  - right. eexists. reflexivity.
  - left. reflexivity.
Qed.

Lemma getTerritoryMetrics_heap (w : World) (useMock : bool) (h : Heap) :
  take (length h) (final_heap (dataService.getTerritoryMetrics w useMock h))
  = h.
Proof.
  destruct (fetch_outcome w
              "/data/ca_businesses_standardized_by_zip_code.json")
    as [response|e] eqn:Hfetch.
  2: { unfold dataService.getTerritoryMetrics, try_catch, bind, fetch,
         emit. rewrite Hfetch. cbn. apply firstn_all. }
  destruct (FetchResponse.ok response) eqn:Hok.
  2: { unfold dataService.getTerritoryMetrics, try_catch, bind, fetch,
         emit. rewrite Hfetch. cbn. rewrite Hok. cbn. apply firstn_all. }
  destruct (FetchResponse.body response) as [payload|e] eqn:Hbody.
  2: { unfold dataService.getTerritoryMetrics, try_catch, bind, fetch,
         emit, json. rewrite Hfetch. cbn. rewrite Hok, Hbody. cbn.
       apply firstn_all. }
  assert (Hcases : payload = JsNull \/ payload = JsUndefined \/
                   (payload <> JsNull /\ payload <> JsUndefined)).
  { destruct payload; auto; right; right; split; discriminate. }
  destruct Hcases as [->|[->|[Hnull Hundef]]].
  1, 2: unfold dataService.getTerritoryMetrics, try_catch, bind, fetch,
          emit, json; rewrite Hfetch; cbn; rewrite Hok, Hbody; cbn;
          apply firstn_all.
  destruct (getTerritoryMetrics_parsed w useMock h response payload
              Hfetch Hok Hbody Hnull Hundef) as [_ ->].
  match goal with
  | |- context [array_sort ?c ?r ?h0] =>
      destruct (array_sort_heap w r h0) as [->|[items ->]]
  end.
  - apply take_app_length.
  - unfold heap_write. rewrite take_insert_ge by lia.
    apply take_app_length.
Qed.

(** A payload that is the JSON value [null] has no fields: reading
    [payload.territories] throws, and the TypeError is returned as the
    error of the envelope. *)
Lemma getTerritoryMetrics_null_payload (w : World) (useMock : bool)
  (h : Heap) (response : FetchResponse.t) :
  fetch_outcome w "/data/ca_businesses_standardized_by_zip_code.json"
  = FetchResolved response ->
  FetchResponse.ok response = true ->
  FetchResponse.body response = JsonParsed JsNull ->
  exists message,
    completion (dataService.getTerritoryMetrics w useMock h)
    = Normal (Envelope.mk JsNull (Some (JsError "TypeError" message))).
Proof.
  intros Hfetch Hok Hbody.
  unfold dataService.getTerritoryMetrics, try_catch, bind, fetch, emit,
    json, completion.
  rewrite Hfetch; cbn. rewrite Hok, Hbody; cbn. eauto.
Qed.

(** C10, as stated, fails: the fetch succeeds with status 200 and the
    body is the JSON text null, so there is no territories array; reading
    payload.territories throws, and the method returns data = null with
    the TypeError instead of a success. *)
Lemma getTerritoryMetrics_null_body_is_error :
  fetch_outcome null_body_world
    "/data/ca_businesses_standardized_by_zip_code.json"
  = FetchResolved (FetchResponse.mk 200 (JsonParsed JsNull)) /\
  isArray (prop "territories" JsNull) = false /\
  (exists message,
      completion (dataService.getTerritoryMetrics null_body_world false [])
      = Normal (Envelope.mk JsNull (Some (JsError "TypeError" message)))) /\
  forall data,
    completion (dataService.getTerritoryMetrics null_body_world false [])
    <> Normal (Envelope.mk data None).
Proof.
  split; [reflexivity|]. split; [reflexivity|].
  split; [eexists; reflexivity|]. intros data. discriminate.
Qed.

(** C10, amended: when the fetch succeeds and the parsed payload is a
    JSON value other than null that has no array under territories,
    getTerritoryMetrics returns success with groupBy = group_by if that
    is truthy and 'zip_code' otherwise, summary = summary if that is
    truthy and null otherwise, and a new empty territories array; and in
    every execution the arrays that existed before the call, the
    payload's territories among them, are unchanged, the copy being the
    array that is sorted. *)
Theorem getTerritoryMetrics_without_array :
  (forall (w : World) (useMock : bool) (h : Heap)
      (response : FetchResponse.t) (payload : JsValue),
      fetch_outcome w "/data/ca_businesses_standardized_by_zip_code.json"
      = FetchResolved response ->
      (200 <= FetchResponse.status response <= 299)%Z ->
      FetchResponse.body response = JsonParsed payload ->
      payload <> JsNull -> payload <> JsUndefined ->
      isArray (prop "territories" payload) = false ->
      completion (dataService.getTerritoryMetrics w useMock h)
      = Normal
          (Envelope.mk
             (metrics_object
                (if truthy (prop "group_by" payload)
                 then prop "group_by" payload else JsString "zip_code")
                (if truthy (prop "summary" payload)
                 then prop "summary" payload else JsNull)
                (length h))
             None) /\
      final_heap (dataService.getTerritoryMetrics w useMock h)
      = h ++ [[]]) /\
  (forall (w : World) (useMock : bool) (h : Heap),
      take (length h)
        (final_heap (dataService.getTerritoryMetrics w useMock h)) = h).
Proof.
  split; [|apply getTerritoryMetrics_heap].
  intros w useMock h response payload Hfetch Hstatus Hbody Hnull Hundef
    Harr.
  destruct (getTerritoryMetrics_parsed w useMock h response payload
              Hfetch (status_ok _ Hstatus) Hbody Hnull Hundef) as [Hc Hh].
  assert (Hitems : match prop "territories" payload with
                   | JsArray r => heap_read h r
                   | _ => []
                   end = []).
  { destruct (prop "territories" payload); try reflexivity; discriminate. }
  rewrite Hitems in Hc, Hh.
  assert (Hsort : array_sort (by_business_count w) (length h) (h ++ [[]])
                  = (Normal tt, h ++ [[]], [])).
  { rewrite array_sort_run.
    - unfold heap_read, heap_write.
      rewrite list_lookup_middle by reflexivity. cbn.
      rewrite list_insert_id; [reflexivity|].
      apply list_lookup_middle. reflexivity.
    - unfold heap_read. rewrite list_lookup_middle by reflexivity.
      constructor. }
  rewrite Hsort in Hc, Hh. split; [exact Hc|exact Hh].
Qed.

Lemma getTerritoryMetrics_without_array_witness :
  completion
    (dataService.getTerritoryMetrics (static_world bare_payload) true
       counts_heap)
  = Normal
      (Envelope.mk (metrics_object (JsString "zip_code") JsNull 1) None) /\
  take 1
    (final_heap
       (dataService.getTerritoryMetrics (static_world counts_payload) true
          counts_heap))
  = counts_heap.
Proof.
  split.
  - refine (proj1 (proj1 getTerritoryMetrics_without_array
                     (static_world bare_payload) true counts_heap
                     (FetchResponse.mk 200 (JsonParsed bare_payload))
                     bare_payload eq_refl _ eq_refl _ _ eq_refl)).
    + cbn. lia.
    + discriminate.
    + discriminate.
  - exact (proj2 getTerritoryMetrics_without_array
             (static_world counts_payload) true counts_heap).
Defined.

(** ** Derived statistics: the counts *)

Lemma same_value_zero_eq (a b : JsValue) :
  scalar a = true -> (same_value_zero a b = true <-> a = b).
Proof.
  destruct a, b; cbn; try discriminate; intros _;
    try (split; [discriminate|congruence]); try tauto.
  - rewrite Bool.eqb_true_iff. split; congruence.
  - rewrite Z.eqb_eq. split; congruence.
  - rewrite String.eqb_eq. split; congruence.
Qed.

Lemma JsSet_has_In (v : JsValue) (s : JsSet.t) :
  scalar v = true -> (JsSet.has v s = true <-> In v s).
Proof.
  intros Hv. unfold JsSet.has. rewrite existsb_exists. split.
  - intros [x [Hin Heq]]. apply same_value_zero_eq in Heq; [|exact Hv].
    subst x. exact Hin.
  - intros Hin. exists v. split; [exact Hin|].
    apply same_value_zero_eq; [exact Hv|reflexivity].
Qed.

Lemma add_if_truthy_spec (v : JsValue) (s : JsSet.t) :
  scalar v = true -> NoDup s ->
  NoDup (add_if_truthy v s) /\
  forall x, In x (add_if_truthy v s) <-> In x s \/ (truthy v = true /\ x = v).
Proof.
  intros Hv Hs. unfold add_if_truthy, JsSet.add.
  destruct (truthy v) eqn:Ht.
  - destruct (JsSet.has v s) eqn:Hhas.
    + apply JsSet_has_In in Hhas; [|exact Hv].
      split; [exact Hs|]. intros x. split; [tauto|].
      intros [Hx|[_ ->]]; assumption.
    + assert (Hnot : ~ In v s).
      { intros Hin. apply JsSet_has_In in Hin; [congruence|exact Hv]. }
      split.
      * apply NoDup_app. split; [exact Hs|]. split.
        -- intros x Hx Hx'. apply list_elem_of_In in Hx.
           apply list_elem_of_In in Hx'. cbn in Hx'.
           destruct Hx' as [<-|[]]. contradiction.
        -- apply NoDup_singleton.
      * intros x. rewrite in_app_iff. cbn. split.
        -- intros [Hx|[<-|[]]]; auto.
        -- intros [Hx|[_ ->]]; auto.
  - split; [exact Hs|]. intros x. split; [tauto|].
    intros [Hx|[Hfalse _]]; [exact Hx|discriminate].
Qed.

Lemma collect_spec (vals : list JsValue) (s : JsSet.t) :
  Forall (fun v => scalar v = true) vals -> NoDup s ->
  NoDup (collect vals s) /\
  forall x, In x (collect vals s) <-> In x s \/ (truthy x = true /\ In x vals).
Proof.
  intros Hvals. revert s.
  induction Hvals as [|v vals Hv Hvals IH]; intros s Hs; cbn.
  - split; [exact Hs|]. intros x. tauto.
  - destruct (add_if_truthy_spec v s Hv Hs) as [Hnd Hin].
    destruct (IH _ Hnd) as [Hnd' Hin'].
    split; [exact Hnd'|].
    intros x. rewrite Hin', Hin. split.
    + intros [[Hx|[Ht ->]]|[Ht Hx]]; auto.
    + intros [Hx|[Ht [<-|Hx]]]; auto.
Qed.

Lemma count_record_run (acc : Counters) (rec : JsValue) (h : Heap) :
  is_flat_record rec = true ->
  count_record acc rec h = (Normal (count_fields acc rec), h, []).
Proof.
  destruct rec; try discriminate. intros _. reflexivity.
Qed.

Lemma for_of_count_record_run (items : list JsValue) (acc : Counters)
  (h : Heap) :
  Forall (fun rec => is_flat_record rec = true) items ->
  for_of count_record items acc h
  = (Normal (fold_left count_fields items acc), h, []).
Proof.
  intros Hitems. revert acc.
  induction Hitems as [|rec items Hrec Hitems IH]; intros acc; cbn.
  - reflexivity.
  - unfold bind. rewrite count_record_run by exact Hrec.
    rewrite IH. reflexivity.
Qed.

Lemma fold_count_fields (items : list JsValue) (acc : Counters) :
  fold_left count_fields items acc
  = {| totalBusinesses := totalBusinesses acc + Z.of_nat (length items);
       zips := collect (map (prop "zip_code") items) (zips acc);
       blockgroups :=
         collect (map (prop "blockgroup") items) (blockgroups acc);
       cities := collect (map (prop "city") items) (cities acc) |}.
Proof.
  revert acc. induction items as [|rec items IH]; intros acc.
  - destruct acc. cbn. f_equal. lia.
  - cbn [fold_left]. rewrite IH. cbn. f_equal. lia.
Qed.

Lemma collect_cardinality (name : string) (items : list JsValue) :
  Forall (fun rec => scalar (prop name rec) = true) items ->
  cardinality_of
    (fun v => truthy v = true /\ field_value name items v)
    (JsSet.size (collect (map (prop name) items) JsSet.empty)).
Proof.
  intros Hitems.
  destruct (collect_spec (map (prop name) items) JsSet.empty) as [Hnd Hin].
  { apply Forall_map. exact Hitems. }
  { constructor. }
  exists (collect (map (prop name) items) JsSet.empty).
  split; [exact Hnd|]. split; [|reflexivity].
  intros v. rewrite Hin. unfold field_value. rewrite in_map_iff. cbn.
  split.
  - intros [[]|[Ht [rec [Heq Hrec]]]]. eauto.
  - intros [Ht [rec [Hrec Heq]]]. right. eauto.
Qed.

Lemma flat_record_fields (items : list JsValue) :
  Forall (fun rec => is_flat_record rec = true) items ->
  Forall (fun rec => scalar (prop "zip_code" rec) = true) items /\
  Forall (fun rec => scalar (prop "blockgroup" rec) = true) items /\
  Forall (fun rec => scalar (prop "city" rec) = true) items.
Proof.
  intros Hitems. repeat split;
    (eapply Forall_impl; [exact Hitems|]); intros rec Hrec;
    destruct rec; try discriminate; cbn in *;
    repeat (apply andb_prop in Hrec; destruct Hrec as [Hrec ?]);
    assumption.
Qed.

(** C5, as stated, fails: a record whose zip_code is the empty string
    has a zip_code value present, yet getStats reports totalZipcodes = 0,
    while the number of distinct zip_code values present is 1. *)
Lemma getStats_skips_blank_zip_code :
  completion
    (dataService.getStats (static_world (JsArray 0)) false
       blank_zip_records)
  = Normal
      (Envelope.mk (stats_object 1 0 1 0 "2024-02-01T00:00:00.000Z") None) /\
  cardinality_of
    (fun v => v <> JsUndefined /\
              field_value "zip_code" (heap_read blank_zip_records 0) v) 1 /\
  ~ cardinality_of
      (fun v => v <> JsUndefined /\
                field_value "zip_code" (heap_read blank_zip_records 0) v) 0.
Proof.
  split; [reflexivity|].
  assert (Hpresent :
    JsString "" <> JsUndefined /\
    field_value "zip_code" (heap_read blank_zip_records 0) (JsString "")).
  { split; [discriminate|]. eexists. split; [left; reflexivity|reflexivity]. }
  split.
  - exists [JsString ""]. split; [apply NoDup_singleton|].
    split; [|reflexivity]. intros v. split.
    + intros [<-|[]]. exact Hpresent.
    + intros [_ [rec [[<-|[]] <-]]]. left. reflexivity.
  - intros [vals [_ [Hin Hlen]]].
    destruct vals; [|discriminate].
    apply (Hin (JsString "")). exact Hpresent.
Qed.

(** C5, amended: in the derived strategy, for every bulk array of flat
    records getStats returns totalBusinesses equal to the number of
    records and totalZipcodes, totalBlockGroups, totalCities equal to the
    numbers of distinct truthy (non-empty, non-null, non-zero) zip_code,
    blockgroup and city values, with graphNodes and graphRelationships
    null; for the three records of the example it yields
    totalBusinesses = 3, totalZipcodes = 2, totalCities = 2,
    totalBlockGroups = 0, graphNodes = null. *)
Theorem getStats_counts_distinct_truthy :
  (forall (w : World) (useMock : bool) (h : Heap)
      (response : FetchResponse.t) (r : loc),
      fetch_outcome w "/data/ca_businesses_standardized.json"
      = FetchResolved response ->
      (200 <= FetchResponse.status response <= 299)%Z ->
      FetchResponse.body response = JsonParsed (JsArray r) ->
      Forall (fun rec => is_flat_record rec = true) (heap_read h r) ->
      exists blockGroups cities zipcodes,
        completion (dataService.getStats w useMock h)
        = Normal
            (Envelope.mk
               (stats_object (Z.of_nat (length (heap_read h r)))
                  blockGroups cities zipcodes (now_iso w))
               None) /\
        cardinality_of
          (fun v => truthy v = true /\
                    field_value "blockgroup" (heap_read h r) v)
          blockGroups /\
        cardinality_of
          (fun v => truthy v = true /\ field_value "city" (heap_read h r) v)
          cities /\
        cardinality_of
          (fun v => truthy v = true /\
                    field_value "zip_code" (heap_read h r) v)
          zipcodes) /\
  completion
    (dataService.getStats (static_world (JsArray 0)) false example_records)
  = Normal
      (Envelope.mk (stats_object 3 0 2 2 "2024-02-01T00:00:00.000Z") None).
Proof.
  split; [|reflexivity].
  intros w useMock h response r Hfetch Hstatus Hbody Hflat.
  destruct (flat_record_fields _ Hflat) as [Hzip [Hbg Hcity]].
  exists (JsSet.size
            (collect (map (prop "blockgroup") (heap_read h r)) JsSet.empty)),
    (JsSet.size (collect (map (prop "city") (heap_read h r)) JsSet.empty)),
    (JsSet.size
       (collect (map (prop "zip_code") (heap_read h r)) JsSet.empty)).
  split.
  - unfold dataService.getStats, try_catch, bind, fetch, emit, json,
      completion.
    rewrite Hfetch; cbn. rewrite (status_ok _ Hstatus), Hbody; cbn.
    unfold read_array. rewrite for_of_count_record_run by exact Hflat.
    rewrite fold_count_fields. reflexivity.
  - split; [|split]; apply collect_cardinality; assumption.
Qed.

Lemma getStats_counts_distinct_truthy_witness :
  exists blockGroups cities zipcodes,
    completion
      (dataService.getStats (static_world (JsArray 0)) true
         blank_zip_records)
    = Normal
        (Envelope.mk
           (stats_object 1 blockGroups cities zipcodes
              "2024-02-01T00:00:00.000Z")
           None) /\
    cardinality_of
      (fun v => truthy v = true /\
                field_value "zip_code" (heap_read blank_zip_records 0) v)
      zipcodes.
Proof.
  destruct (proj1 getStats_counts_distinct_truthy
              (static_world (JsArray 0)) true blank_zip_records
              (FetchResponse.mk 200 (JsonParsed (JsArray 0))) 0 eq_refl)
    as [blockGroups [cities [zipcodes [Hrun [_ [_ Hzip]]]]]].
  - cbn. lia.
  - reflexivity.
  - repeat constructor.
  - exists blockGroups, cities, zipcodes. split; [exact Hrun|exact Hzip].
Defined.

(** ** The fetch-lifecycle hook *)

Lemma settle_generation (g : nat) (result : Envelope.t)
  (s : useApi.FetchState) :
  useApi.generation (useApi.settle g result s) = useApi.generation s.
Proof.
  unfold useApi.settle. destruct (Nat.eqb _ _); reflexivity.
Qed.

Lemma settle_stale (g : nat) (result : Envelope.t) (s : useApi.FetchState) :
  g <> useApi.generation s -> useApi.settle g result s = s.
Proof.
  intros Hg. unfold useApi.settle.
  destruct (Nat.eqb_spec (useApi.generation s) g); [congruence|reflexivity].
Qed.

Lemma settle_current (result : Envelope.t) (s : useApi.FetchState) :
  useApi.settle (useApi.generation s) result s
  = settled (useApi.generation s) result.
Proof.
  unfold useApi.settle. rewrite Nat.eqb_refl. reflexivity.
Qed.

(** Resolutions of other calls leave the state alone. *)
Lemma run_stale (post : list useApi.Action) (s : useApi.FetchState) :
  Forall (fun a => is_start a = false) post ->
  Forall (fun a => resolves (useApi.generation s) a = false) post ->
  useApi.run post s = s.
Proof.
  intros Hstart Hres. unfold useApi.run.
  induction post as [|a post IH]; cbn; [reflexivity|].
  inversion Hstart as [|? ? Ha Hstart']; subst.
  inversion Hres as [|? ? Hr Hres']; subst.
  destruct a as [|call result]; [discriminate|]. cbn in *.
  rewrite settle_stale.
  - apply IH; assumption.
  - apply Nat.eqb_neq in Hr. exact Hr.
Qed.

Lemma run_generation (post : list useApi.Action) (s : useApi.FetchState) :
  Forall (fun a => is_start a = false) post ->
  useApi.generation (useApi.run post s) = useApi.generation s.
Proof.
  intros Hstart. revert s. unfold useApi.run.
  induction Hstart as [|a post Ha Hpost IH]; intros s; cbn; [reflexivity|].
  destruct a as [|call result]; [discriminate|]. cbn.
  rewrite IH. apply settle_generation.
Qed.

(** The call started last wins. *)
Lemma run_last_wins (s : useApi.FetchState)
  (before after : list useApi.Action) (r : Envelope.t) :
  Forall (fun a => is_start a = false) before ->
  Forall (fun a => is_start a = false) after ->
  Forall (fun a => resolves (useApi.generation s) a = false) after ->
  useApi.run (before ++ useApi.Resolve (useApi.generation s) r :: after) s
  = settled (useApi.generation s) r.
Proof.
  intros Hbefore Hafter Hres.
  unfold useApi.run. rewrite fold_left_app. cbn [fold_left useApi.step].
  fold (useApi.run before s).
  rewrite <- (run_generation before s Hbefore) at 1.
  rewrite settle_current.
  rewrite (run_generation before s Hbefore).
  apply run_stale; assumption.
Qed.

(** C8: with call A started, call B started before A resolves, B
    resolved and then A resolved, the hook state shows B's result and is
    no longer loading; a resolution whose captured generation is older
    than the current one leaves the state unchanged; and in general,
    once the call started last has resolved, the state shows its result
    whatever resolutions of other calls arrive before or after it. *)
Theorem stale_response_suppression :
  (forall (s : useApi.FetchState) (rA rB : Envelope.t),
      let sA := fst (useApi.start s) in
      let gA := snd (useApi.start s) in
      let sB := fst (useApi.start sA) in
      let gB := snd (useApi.start sA) in
      useApi.settle gA rA (useApi.settle gB rB sB) = settled gB rB /\
      useApi.run
        [useApi.Start; useApi.Start; useApi.Resolve gB rB;
         useApi.Resolve gA rA] s
      = settled gB rB) /\
  (forall (s : useApi.FetchState) (g : nat) (r : Envelope.t),
      g < useApi.generation s -> useApi.settle g r s = s) /\
  (forall (s : useApi.FetchState) (before after : list useApi.Action)
      (r : Envelope.t),
      let last := fst (useApi.start s) in
      let g := snd (useApi.start s) in
      Forall (fun a => is_start a = false) before ->
      Forall (fun a => is_start a = false) after ->
      Forall (fun a => resolves g a = false) after ->
      useApi.run (before ++ useApi.Resolve g r :: after) last
      = settled g r).
Proof.
  split; [|split].
  - intros s rA rB. cbn. unfold useApi.settle at 2 4. cbn.
    rewrite !Nat.eqb_refl. unfold settled.
    rewrite settle_stale by (cbn; lia). split; reflexivity.
  - intros s g r Hg. apply settle_stale. lia.
  - intros s before after r last g Hbefore Hafter Hres.
    apply (run_last_wins last before after r Hbefore Hafter Hres).
Qed.

Lemma stale_response_suppression_witness :
  useApi.run
    [useApi.Start; useApi.Start; useApi.Resolve 2 result_B;
     useApi.Resolve 1 result_A] useApi.idle
  = settled 2 result_B /\
  useApi.settle 1 result_A (settled 2 result_B) = settled 2 result_B.
Proof.
  split.
  - apply (proj2 (proj2 stale_response_suppression)
             (fst (useApi.start useApi.idle)) []
             [useApi.Resolve 1 result_A] result_B);
      repeat constructor.
  - apply (proj1 (proj2 stale_response_suppression)). cbn. lia.
Defined.

(** * Further properties of the service layer *)

(** ** Health check and list resources *)

(** X1: healthCheck hands on the envelope of the request wrapper for GET
    /health as it is, whatever the mock flag: after exactly one request
    and no timer, the payload on success, and on failure data = null
    with the interceptor's error; no fixture is involved. *)
Theorem healthCheck_transparent (w : World) (useMock : bool) (h : Heap) :
  dataService.healthCheck w useMock h = api.get w "/health" [] h /\
  dataService.healthCheck w useMock h
  = (Normal
       match adapter w (AxiosRequestConfig.mk "GET" "/health" JsNull []) with
       | inl response => Envelope.mk (AxiosResponse.data response) None
       | inr error =>
           Envelope.mk JsNull (Some (EnhancedError (enhancedError error)))
       end,
     h, [EvHttp "GET" "/health"]).
Proof.
  unfold dataService.healthCheck, api.get, bind.
  rewrite apiRequest_run. cbn.
  destruct (adapter w _); split; reflexivity.
Qed.

(** X2: getTables, getExports, getNotebooks, getScripts and the
    direct-strategy getStats resolve in every world and for either value
    of the mock flag with error = null. *)
Theorem list_methods_never_surface_error (w : World) (useMock : bool)
  (h : Heap) :
  (exists d, completion (dataService.getTables w useMock h)
             = Normal (Envelope.mk d None)) /\
  (exists d, completion (dataService.getExports w useMock h)
             = Normal (Envelope.mk d None)) /\
  (exists d, completion (dataService.getNotebooks w useMock h)
             = Normal (Envelope.mk d None)) /\
  (exists d, completion (dataService.getScripts w useMock h)
             = Normal (Envelope.mk d None)) /\
  (exists d, completion (directDataService.getStats w useMock h)
             = Normal (Envelope.mk d None)).
Proof.
  destruct useMock; repeat apply conj; run_list_method; cbn;
    try (eexists; reflexivity);
    destruct (adapter w _); cbn; eexists; reflexivity.
Qed.

(** X3: with mock mode off, a request that the server answers comes back
    as { data: payload, error: null } with the payload unchanged, after
    the one GET request to the method's own path and nothing else; the
    heap is not touched. *)
Theorem list_methods_pass_payload (w : World) (h : Heap)
  (response : AxiosResponse.t) :
  (adapter w (AxiosRequestConfig.mk "GET" "/api/tables" JsNull [])
   = inl response ->
   dataService.getTables w false h
   = (Normal (Envelope.mk (AxiosResponse.data response) None), h,
      [EvHttp "GET" "/api/tables"])) /\
  (adapter w (AxiosRequestConfig.mk "GET" "/api/exports" JsNull [])
   = inl response ->
   dataService.getExports w false h
   = (Normal (Envelope.mk (AxiosResponse.data response) None), h,
      [EvHttp "GET" "/api/exports"])) /\
  (adapter w (AxiosRequestConfig.mk "GET" "/api/notebooks" JsNull [])
   = inl response ->
   dataService.getNotebooks w false h
   = (Normal (Envelope.mk (AxiosResponse.data response) None), h,
      [EvHttp "GET" "/api/notebooks"])) /\
  (adapter w (AxiosRequestConfig.mk "GET" "/api/scripts" JsNull [])
   = inl response ->
   dataService.getScripts w false h
   = (Normal (Envelope.mk (AxiosResponse.data response) None), h,
      [EvHttp "GET" "/api/scripts"])) /\
  (adapter w (AxiosRequestConfig.mk "GET" "/api/stats" JsNull [])
   = inl response ->
   directDataService.getStats w false h
   = (Normal (Envelope.mk (AxiosResponse.data response) None), h,
      [EvHttp "GET" "/api/stats"])).
Proof.
  repeat apply conj; intros Hanswer; run_list_method; cbn;
    rewrite Hanswer; reflexivity.
Qed.

Lemma list_methods_pass_payload_witness :
  dataService.getTables empty_list_world false [[]]
  = (Normal (Envelope.mk (JsArray 0) None), [[]],
     [EvHttp "GET" "/api/tables"]) /\
  directDataService.getStats null_payload_world false []
  = (Normal (Envelope.mk JsNull None), [], [EvHttp "GET" "/api/stats"]).
Proof.
  split.
  - apply (proj1 (list_methods_pass_payload empty_list_world [[]]
                    (AxiosResponse.mk 200 "OK" (JsArray 0)
                       (AxiosRequestConfig.mk "POST" "/api/tables" JsNull
                          [])))).
    reflexivity.
  - apply (proj2 (proj2 (proj2 (proj2
             (list_methods_pass_payload null_payload_world []
                (AxiosResponse.mk 200 "OK" JsNull
                   (AxiosRequestConfig.mk "GET" "/api/tables" JsNull
                      []))))))).
    reflexivity.
Defined.

(** X4: with mock mode off, a request that fails costs the one GET
    request and then the 500 ms delay of the mock API before the fixture
    is returned; the heap is not touched. *)
Theorem list_methods_fallback_effects (w : World) (h : Heap)
  (error : AxiosError.t) :
  (adapter w (AxiosRequestConfig.mk "GET" "/api/tables" JsNull [])
   = inr error ->
   dataService.getTables w false h
   = (Normal (Envelope.mk mockData.tables None), h,
      [EvHttp "GET" "/api/tables"; EvDelay 500])) /\
  (adapter w (AxiosRequestConfig.mk "GET" "/api/exports" JsNull [])
   = inr error ->
   dataService.getExports w false h
   = (Normal (Envelope.mk mockData.exports None), h,
      [EvHttp "GET" "/api/exports"; EvDelay 500])) /\
  (adapter w (AxiosRequestConfig.mk "GET" "/api/notebooks" JsNull [])
   = inr error ->
   dataService.getNotebooks w false h
   = (Normal (Envelope.mk mockData.notebooks None), h,
      [EvHttp "GET" "/api/notebooks"; EvDelay 500])) /\
  (adapter w (AxiosRequestConfig.mk "GET" "/api/scripts" JsNull [])
   = inr error ->
   dataService.getScripts w false h
   = (Normal (Envelope.mk mockData.scripts None), h,
      [EvHttp "GET" "/api/scripts"; EvDelay 500])) /\
  (adapter w (AxiosRequestConfig.mk "GET" "/api/stats" JsNull [])
   = inr error ->
   directDataService.getStats w false h
   = (Normal (Envelope.mk mockData.stats None), h,
      [EvHttp "GET" "/api/stats"; EvDelay 500])).
Proof.
  repeat apply conj; intros Hanswer; run_list_method; cbn;
    rewrite Hanswer; reflexivity.
Qed.

Lemma list_methods_fallback_effects_witness :
  dataService.getScripts failing_world false mockData.heap
  = (Normal (Envelope.mk mockData.scripts None), mockData.heap,
     [EvHttp "GET" "/api/scripts"; EvDelay 500]).
Proof.
  eapply (proj1 (proj2 (proj2 (proj2
            (list_methods_fallback_effects failing_world mockData.heap _))))).
  reflexivity.
Defined.



(** ** Derived statistics: every execution *)

Lemma count_record_defined (acc : Counters) (rec : JsValue) (h : Heap) :
  nullish rec = false ->
  count_record acc rec h = (Normal (count_fields acc rec), h, []).
Proof. destruct rec; try discriminate; reflexivity. Qed.

Lemma count_record_nullish (acc : Counters) (rec : JsValue) (h : Heap) :
  nullish rec = true ->
  exists message,
    count_record acc rec h = (Throw (JsError "TypeError" message), h, []).
Proof. destruct rec; try discriminate; intros _; eexists; reflexivity. Qed.

Lemma for_of_count_record_defined (items : list JsValue) (acc : Counters)
  (h : Heap) :
  Forall (fun rec => nullish rec = false) items ->
  for_of count_record items acc h
  = (Normal (fold_left count_fields items acc), h, []).
Proof.
  intros Hitems. revert acc.
  induction Hitems as [|rec items Hrec Hitems IH]; intros acc; cbn.
  - reflexivity.
  - unfold bind. rewrite count_record_defined by exact Hrec.
    rewrite IH. reflexivity.
Qed.

Lemma for_of_count_record_nullish (items : list JsValue) (acc : Counters)
  (h : Heap) :
  Exists (fun rec => nullish rec = true) items ->
  exists message,
    for_of count_record items acc h
    = (Throw (JsError "TypeError" message), h, []).
Proof.
  revert acc. induction items as [|rec items IH]; intros acc Hex.
  - inversion Hex.
  - cbn. unfold bind. destruct (nullish rec) eqn:Hrec.
    + destruct (count_record_nullish acc rec h Hrec) as [message ->].
      eauto.
    + rewrite count_record_defined by exact Hrec.
      inversion Hex as [? ? Hhd|? ? Htl]; subst; [congruence|].
      destruct (IH (count_fields acc rec) Htl) as [message ->]. eauto.
Qed.

Lemma for_of_count_record_cases (items : list JsValue) (acc : Counters)
  (h : Heap) :
  for_of count_record items acc h
  = (Normal (fold_left count_fields items acc), h, []) \/
  exists message,
    for_of count_record items acc h
    = (Throw (JsError "TypeError" message), h, []).
Proof.
  revert acc. induction items as [|rec items IH]; intros acc; cbn.
  - left. reflexivity.
  - unfold bind. destruct (nullish rec) eqn:Hrec.
    + right. destruct (count_record_nullish acc rec h Hrec) as [message ->].
      eauto.
    + rewrite count_record_defined by exact Hrec.
      destruct (IH (count_fields acc rec)) as [->|[message ->]]; eauto.
Qed.

Lemma iterate_cases (v : JsValue) (h : Heap) :
  (exists items, iterate v h = (Normal items, h, [])) \/
  (exists e, iterate v h = (Throw e, h, [])).
Proof. destruct v; cbn; eauto. Qed.

(** X6: every execution of the derived getStats ends in one of two ways:
    with freshly computed statistics after the one fetch of the bulk
    file, or with the fixture statistics after that fetch and the 500 ms
    delay of the mock API. In both, data is not null, error is null, no
    REST request is made and the heap is as before. *)
Theorem getStats_outcomes (w : World) (useMock : bool) (h : Heap) :
  (exists total blockGroups cities zipcodes,
      dataService.getStats w useMock h
      = (Normal
           (Envelope.mk
              (stats_object total blockGroups cities zipcodes (now_iso w))
              None),
         h, [EvFetch "/data/ca_businesses_standardized.json"])) \/
  dataService.getStats w useMock h
  = (Normal (Envelope.mk mockData.stats None), h,
     [EvFetch "/data/ca_businesses_standardized.json"; EvDelay 500]).
Proof.
  unfold dataService.getStats, try_catch, bind, fetch, emit,
    mockApi.getStats, delay, ret, throw, json; cbn.
  destruct (fetch_outcome w _) as [response|e]; cbn; [|right; reflexivity].
  destruct (FetchResponse.ok response); cbn; [|right; reflexivity].
  destruct (FetchResponse.body response) as [payload|e]; cbn;
    [|right; reflexivity].
  destruct (iterate_cases payload h) as [[items ->]|[e ->]]; cbn;
    [|right; reflexivity].
  match goal with
  | |- context [for_of count_record items ?acc h] =>
      destruct (for_of_count_record_cases items acc h)
        as [->|[message ->]]
  end; cbn; [left|right; reflexivity].
  do 4 eexists. unfold stats_object. reflexivity.
Qed.

(** X7: when the bulk file is fetched and parsed but is not a list of
    records, getStats discards what it has counted and returns the
    fixture statistics: so for a body that is a JSON object, number,
    boolean or null, and for an array with a null entry. *)
Theorem getStats_malformed_body_falls_back (w : World) (useMock : bool)
  (h : Heap) (response : FetchResponse.t) (payload : JsValue) :
  fetch_outcome w "/data/ca_businesses_standardized.json"
  = FetchResolved response ->
  (200 <= FetchResponse.status response <= 299)%Z ->
  FetchResponse.body response = JsonParsed payload ->
  match payload with
  | JsArray r => Exists (fun rec => nullish rec = true) (heap_read h r)
  | JsString _ => False
  | _ => True
  end ->
  completion (dataService.getStats w useMock h)
  = Normal (Envelope.mk mockData.stats None).
Proof.
  intros Hfetch Hstatus Hbody Hbad.
  unfold dataService.getStats, try_catch, bind, fetch, emit,
    mockApi.getStats, delay, ret, throw, json, completion.
  rewrite Hfetch; cbn. rewrite (status_ok _ Hstatus), Hbody; cbn.
  destruct payload; try contradiction; try reflexivity.
  cbn. unfold read_array.
  match goal with
  | |- context [for_of count_record ?items ?acc h] =>
      destruct (for_of_count_record_nullish items acc h Hbad)
        as [message ->]
  end.
  reflexivity.
Qed.

Lemma getStats_malformed_body_falls_back_witness :
  completion
    (dataService.getStats
       (static_world (JsObject [("records", JsArray 0)])) false
       example_records)
  = Normal (Envelope.mk mockData.stats None) /\
  completion
    (dataService.getStats (static_world (JsArray 0)) false
       [[JsObject [("zip_code", JsString "A")]; JsNull]])
  = Normal (Envelope.mk mockData.stats None).
Proof.
  split.
  - apply (getStats_malformed_body_falls_back
             (static_world (JsObject [("records", JsArray 0)])) false
             example_records
             (FetchResponse.mk 200
                (JsonParsed (JsObject [("records", JsArray 0)])))
             (JsObject [("records", JsArray 0)]) eq_refl);
      [cbn; lia | reflexivity | exact I].
  - apply (getStats_malformed_body_falls_back
             (static_world (JsArray 0)) false
             [[JsObject [("zip_code", JsString "A")]; JsNull]]
             (FetchResponse.mk 200 (JsonParsed (JsArray 0)))
             (JsArray 0) eq_refl);
      [cbn; lia | reflexivity |].
    apply Exists_cons_tl. apply Exists_cons_hd. reflexivity.
Defined.

Lemma add_if_truthy_length (v : JsValue) (s : JsSet.t) :
  length (add_if_truthy v s) <= S (length s).
Proof.
  unfold add_if_truthy, JsSet.add.
  destruct (truthy v); [|lia].
  destruct (JsSet.has v s); [lia|].
  rewrite length_app. cbn. lia.
Qed.

Lemma collect_length (vals : list JsValue) (s : JsSet.t) :
  length (collect vals s) <= length s + length vals.
Proof.
  revert s. induction vals as [|v vals IH]; intros s; [cbn; lia|].
  change (collect (v :: vals) s) with (collect vals (add_if_truthy v s)).
  specialize (IH (add_if_truthy v s)).
  pose proof (add_if_truthy_length v s). cbn [length]. lia.
Qed.

(** X8: for a bulk array whose entries are all different from null,
    whatever their fields hold, getStats reports a totalBusinesses equal
    to the number of entries, and none of totalBlockGroups, totalCities,
    totalZipcodes is negative or exceeds totalBusinesses. *)
Theorem getStats_counts_bounded (w : World) (useMock : bool) (h : Heap)
  (response : FetchResponse.t) (r : loc) :
  fetch_outcome w "/data/ca_businesses_standardized.json"
  = FetchResolved response ->
  (200 <= FetchResponse.status response <= 299)%Z ->
  FetchResponse.body response = JsonParsed (JsArray r) ->
  Forall (fun rec => nullish rec = false) (heap_read h r) ->
  exists blockGroups cities zipcodes,
    completion (dataService.getStats w useMock h)
    = Normal
        (Envelope.mk
           (stats_object (Z.of_nat (length (heap_read h r)))
              blockGroups cities zipcodes (now_iso w))
           None) /\
    (0 <= blockGroups <= Z.of_nat (length (heap_read h r)))%Z /\
    (0 <= cities <= Z.of_nat (length (heap_read h r)))%Z /\
    (0 <= zipcodes <= Z.of_nat (length (heap_read h r)))%Z.
Proof.
  intros Hfetch Hstatus Hbody Hitems.
  exists (JsSet.size
            (collect (map (prop "blockgroup") (heap_read h r)) JsSet.empty)),
    (JsSet.size (collect (map (prop "city") (heap_read h r)) JsSet.empty)),
    (JsSet.size
       (collect (map (prop "zip_code") (heap_read h r)) JsSet.empty)).
  split.
  - unfold dataService.getStats, try_catch, bind, fetch, emit, json,
      completion.
    rewrite Hfetch; cbn. rewrite (status_ok _ Hstatus), Hbody; cbn.
    unfold read_array. rewrite for_of_count_record_defined by exact Hitems.
    rewrite fold_count_fields. reflexivity.
  - unfold JsSet.size, JsSet.empty.
    pose proof (collect_length (map (prop "blockgroup") (heap_read h r)) [])
      as Hb.
    pose proof (collect_length (map (prop "city") (heap_read h r)) [])
      as Hc.
    pose proof (collect_length (map (prop "zip_code") (heap_read h r)) [])
      as Hz.
    rewrite length_map in Hb, Hc, Hz. cbn in Hb, Hc, Hz. lia.
Qed.

Lemma getStats_counts_bounded_witness :
  exists blockGroups cities zipcodes,
    completion
      (dataService.getStats (static_world (JsArray 0)) false
         example_records)
    = Normal
        (Envelope.mk
           (stats_object 3 blockGroups cities zipcodes
              "2024-02-01T00:00:00.000Z")
           None) /\
    (0 <= zipcodes <= 3)%Z.
Proof.
  destruct (getStats_counts_bounded (static_world (JsArray 0)) false
              example_records
              (FetchResponse.mk 200 (JsonParsed (JsArray 0))) 0 eq_refl)
    as [blockGroups [cities [zipcodes [Hrun [_ [_ Hzip]]]]]].
  - cbn. lia.
  - reflexivity.
  - repeat constructor.
  - exists blockGroups, cities, zipcodes. split; [exact Hrun|exact Hzip].
Defined.

(** ** Territory metrics: every execution *)

Lemma get_prop_cases (name : string) (v : JsValue) (h : Heap) :
  (nullish v = false /\ get_prop name v h = (Normal (prop name v), h, [])) \/
  (nullish v = true /\
   exists message,
     get_prop name v h = (Throw (JsError "TypeError" message), h, [])).
Proof. destruct v; cbn; eauto. Qed.

(** The comparator completes with a number, or throws a TypeError when
    one of the two elements is null or undefined; it has no effect. *)
Lemma by_business_count_cases (w : World) (a b : JsValue) (h : Heap) :
  (nullish a = false /\ nullish b = false /\
   exists c, by_business_count w a b h = (Normal c, h, [])) \/
  ((nullish a = true \/ nullish b = true) /\
   exists message,
     by_business_count w a b h
     = (Throw (JsError "TypeError" message), h, [])).
Proof.
  unfold by_business_count, bind.
  destruct (get_prop_cases "business_count" b h)
    as [[Hb ->]|[Hb [mb ->]]]; [|right; eauto].
  destruct (get_prop_cases "business_count" a h)
    as [[Ha ->]|[Ha [ma ->]]]; [|right; eauto].
  left. cbn. eauto.
Qed.

Lemma insert_sorted_cases (w : World) (x : JsValue) (l : list JsValue)
  (h : Heap) :
  (exists s, insert_sorted (by_business_count w) x l h = (Normal s, h, [])
             /\ length s = S (length l)) \/
  (exists message,
      insert_sorted (by_business_count w) x l h
      = (Throw (JsError "TypeError" message), h, [])).
Proof.
  induction l as [|y ys IH]; cbn.
  - left. eexists. split; reflexivity.
  - unfold bind.
    destruct (by_business_count_cases w x y h)
      as [[_ [_ [c ->]]]|[_ [message ->]]]; [|right; eauto].
    destruct (before_or_equal c).
    + left. eexists. split; reflexivity.
    + destruct IH as [[s [-> Hlen]]|[message ->]]; [|right; eauto].
      left. eexists. split; [reflexivity|]. cbn. lia.
Qed.

Lemma sort_items_cases (w : World) (l : list JsValue) (h : Heap) :
  (exists s, sort_items (by_business_count w) l h = (Normal s, h, [])
             /\ length s = length l) \/
  (exists message,
      sort_items (by_business_count w) l h
      = (Throw (JsError "TypeError" message), h, [])).
Proof.
  induction l as [|x xs IH]; cbn.
  - left. eexists. split; reflexivity.
  - unfold bind.
    destruct IH as [[s [-> Hlen]]|[message ->]]; [|right; eauto].
    destruct (insert_sorted_cases w x s h)
      as [[s' [-> Hlen']]|[message ->]]; [|right; eauto].
    left. eexists. split; [reflexivity|]. lia.
Qed.

Lemma array_sort_cases (w : World) (r : loc) (h : Heap) :
  (exists items, array_sort (by_business_count w) r h
                 = (Normal tt, heap_write h r items, [])) \/
  (exists message,
      array_sort (by_business_count w) r h
      = (Throw (JsError "TypeError" message), h, [])).
Proof.
  unfold array_sort, bind, read_array, write_array.
  match goal with
  | |- context [sort_items ?c ?l h] =>
      destruct (sort_items_cases w l h) as [[s [-> _]]|[message ->]]
  end; [left|right]; eauto.
Qed.

Lemma territories_copy_cases (field : JsValue) (h : Heap) :
  exists items,
    (if isArray field then spread field else new_array []) h
    = (Normal (length h), h ++ [items], []).
Proof.
  destruct field; cbn; eexists; reflexivity.
Qed.

(** The effects and the envelope of any execution. *)
Lemma getTerritoryMetrics_trace_envelope (w : World) (useMock : bool)
  (h : Heap) :
  trace (dataService.getTerritoryMetrics w useMock h)
  = [EvFetch "/data/ca_businesses_standardized_by_zip_code.json"] /\
  exists e,
    completion (dataService.getTerritoryMetrics w useMock h) = Normal e /\
    exactly_one_non_null e.
Proof.
  assert (Herr : forall err,
    exactly_one_non_null (Envelope.mk JsNull (Some err))).
  { intros err. right. split; [reflexivity|discriminate]. }
  unfold dataService.getTerritoryMetrics, try_catch, bind, fetch, emit,
    ret, throw, json, trace, completion; cbn.
  destruct (fetch_outcome w _) as [response|e]; cbn; [|eauto].
  destruct (FetchResponse.ok response); cbn; [|eauto].
  destruct (FetchResponse.body response) as [payload|e]; cbn; [|eauto].
  destruct (get_prop_cases "territories" payload h)
    as [[Hdef ->]|[Hnull [message ->]]]; cbn; [|eauto].
  destruct (territories_copy_cases (prop "territories" payload) h)
    as [items ->].
  destruct (array_sort_cases w (length h) (h ++ [items]))
    as [[sorted ->]|[message ->]]; cbn; [|eauto].
  destruct (get_prop_cases "group_by" payload
              (heap_write (h ++ [items]) (length h) sorted))
    as [[_ ->]|[Hn _]]; [|congruence].
  destruct (get_prop_cases "summary" payload
              (heap_write (h ++ [items]) (length h) sorted))
    as [[_ ->]|[Hn _]]; [|congruence].
  cbn. split; [reflexivity|]. eexists. split; [reflexivity|].
  left. split; [discriminate|reflexivity].
Qed.

(** X9: every execution of getTerritoryMetrics makes exactly one fetch,
    of the territory file, and no REST request or timer whatever the
    mock flag; and its envelope has exactly one of data and error
    non-null. *)
Theorem getTerritoryMetrics_outcomes (w : World) (useMock : bool)
  (h : Heap) :
  trace (dataService.getTerritoryMetrics w useMock h)
  = [EvFetch "/data/ca_businesses_standardized_by_zip_code.json"] /\
  exists e,
    completion (dataService.getTerritoryMetrics w useMock h) = Normal e /\
    exactly_one_non_null e.
Proof. apply getTerritoryMetrics_trace_envelope. Qed.

Lemma insert_sorted_nullish (w : World) (x y : JsValue)
  (ys : list JsValue) (h : Heap) :
  nullish x = true \/ nullish y = true ->
  exists message,
    insert_sorted (by_business_count w) x (y :: ys) h
    = (Throw (JsError "TypeError" message), h, []).
Proof.
  intros Hnull. cbn. unfold bind.
  destruct (by_business_count_cases w x y h)
    as [[Hx [Hy _]]|[_ [message ->]]]; [|eauto].
  destruct Hnull; congruence.
Qed.

Lemma sort_items_nullish (w : World) (l : list JsValue) (h : Heap) :
  Exists (fun t => nullish t = true) l -> 2 <= length l ->
  exists message,
    sort_items (by_business_count w) l h
    = (Throw (JsError "TypeError" message), h, []).
Proof.
  induction l as [|x xs IH]; intros Hex Hlen; [inversion Hex|].
  cbn [sort_items]. unfold bind.
  destruct (sort_items_cases w xs h) as [[s [Hs Hslen]]|[message Hs]];
    [|rewrite Hs; eauto].
  destruct xs as [|z zs]; [cbn in Hlen; lia|].
  destruct s as [|y ys]; [discriminate|].
  rewrite Hs.
  destruct (nullish x) eqn:Hx.
  - destruct (insert_sorted_nullish w x y ys h (or_introl Hx))
      as [message ->].
    eauto.
  - inversion Hex as [? ? Hhd|? ? Htl]; subst; [congruence|].
    destruct zs as [|z' zs'].
    + inversion Htl as [? ? Hz|? ? Hnil]; subst; [|inversion Hnil].
      cbn in Hs. injection Hs as <- <-.
      destruct (insert_sorted_nullish w x z [] h (or_intror Hz))
        as [message ->].
      eauto.
    + destruct (IH Htl) as [message Hthrow]; [cbn; lia|].
      rewrite Hthrow in Hs. discriminate.
Qed.

(** X10: a null entry among the territories makes getTerritoryMetrics
    fail exactly when there is something to compare it with: with two or
    more entries the comparator reads a field of null and the envelope
    carries that TypeError with data = null; an array of at most one
    entry is never compared and comes back as it is, as a success. *)
Theorem getTerritoryMetrics_null_territory (w : World) (useMock : bool)
  (h : Heap) (response : FetchResponse.t)
  (props : list (string * JsValue)) (r : loc) :
  fetch_outcome w "/data/ca_businesses_standardized_by_zip_code.json"
  = FetchResolved response ->
  (200 <= FetchResponse.status response <= 299)%Z ->
  FetchResponse.body response = JsonParsed (JsObject props) ->
  lookup_prop "territories" props = JsArray r ->
  (In JsNull (heap_read h r) ->
   2 <= length (List.filter (fun v => negb (is_undefined v))
                  (heap_read h r)) ->
   exists message,
     completion (dataService.getTerritoryMetrics w useMock h)
     = Normal (Envelope.mk JsNull (Some (JsError "TypeError" message)))) /\
  (length (heap_read h r) <= 1 ->
   completion (dataService.getTerritoryMetrics w useMock h)
   = Normal
       (Envelope.mk
          (metrics_object
             (js_or (lookup_prop "group_by" props) (JsString "zip_code"))
             (js_or (lookup_prop "summary" props) JsNull)
             (length h))
          None) /\
   heap_read (final_heap (dataService.getTerritoryMetrics w useMock h))
     (length h)
   = heap_read h r).
Proof.
  intros Hfetch Hstatus Hbody Hfield.
  destruct (getTerritoryMetrics_parsed w useMock h response (JsObject props)
              Hfetch (status_ok _ Hstatus) Hbody)
    as [Hc Hh]; [discriminate|discriminate|].
  cbn [prop] in Hc, Hh. rewrite Hfield in Hc, Hh.
  assert (Hread : heap_read (h ++ [heap_read h r]) (length h)
                  = heap_read h r).
  { unfold heap_read at 1. rewrite list_lookup_middle; reflexivity. }
  split.
  - intros Hin Hlen.
    assert (Hthrow : exists message,
      array_sort (by_business_count w) (length h) (h ++ [heap_read h r])
      = (Throw (JsError "TypeError" message), h ++ [heap_read h r], [])).
    { unfold array_sort, bind, read_array. rewrite Hread.
      destruct (sort_items_nullish w
                  (List.filter (fun v => negb (is_undefined v))
                     (heap_read h r))
                  (h ++ [heap_read h r])) as [message ->]; [|exact Hlen|].
      - apply Exists_exists. exists JsNull. split; [|reflexivity].
        apply list_elem_of_In. apply filter_In. split; [exact Hin|].
        reflexivity.
      - eauto. }
    destruct Hthrow as [message Hthrow]. rewrite Hthrow in Hc.
    cbn in Hc. eauto.
  - intros Hlen.
    assert (Hsort :
      array_sort (by_business_count w) (length h) (h ++ [heap_read h r])
      = (Normal tt, h ++ [heap_read h r], [])).
    { unfold array_sort, bind, read_array, write_array. rewrite Hread.
      destruct (heap_read h r) as [|t [|t' rest]]; [| |cbn in Hlen; lia].
      - cbn. unfold heap_write. rewrite list_insert_id; [reflexivity|].
        apply list_lookup_middle. reflexivity.
      - destruct t; cbn; unfold heap_write;
          (rewrite list_insert_id;
           [reflexivity|apply list_lookup_middle; reflexivity]). }
    rewrite Hsort in Hc, Hh. cbn in Hc, Hh.
    split; [exact Hc|]. rewrite Hh. exact Hread.
Qed.

Lemma getTerritoryMetrics_null_territory_witness :
  (exists message,
      completion
        (dataService.getTerritoryMetrics (static_world counts_payload)
           false [[territory "92101" (JsNumber 5); JsNull]])
      = Normal (Envelope.mk JsNull (Some (JsError "TypeError" message)))) /\
  heap_read
    (final_heap
       (dataService.getTerritoryMetrics (static_world counts_payload)
          false [[JsNull]])) 1
  = [JsNull].
Proof.
  split.
  - apply (proj1 (getTerritoryMetrics_null_territory
                    (static_world counts_payload) false
                    [[territory "92101" (JsNumber 5); JsNull]]
                    (FetchResponse.mk 200 (JsonParsed counts_payload))
                    [("group_by", JsString "zip_code");
                     ("summary",
                      JsObject [("total_territories", JsNumber 4)]);
                     ("territories", JsArray 0)]
                    0 eq_refl ltac:(cbn; lia) eq_refl eq_refl)).
    + right. left. reflexivity.
    + cbn. lia.
  - apply (proj2 (getTerritoryMetrics_null_territory
                    (static_world counts_payload) false [[JsNull]]
                    (FetchResponse.mk 200 (JsonParsed counts_payload))
                    [("group_by", JsString "zip_code");
                     ("summary",
                      JsObject [("total_territories", JsNumber 4)]);
                     ("territories", JsArray 0)]
                    0 eq_refl ltac:(cbn; lia) eq_refl eq_refl)).
    cbn. lia.
Defined.

(** * Properties of the components *)

(** ** The error text *)

Lemma message_or_default_not_empty (message : string) :
  message_or_default message <> "".
Proof.
  unfold message_or_default.
  destruct (String.eqb_spec message ""); [discriminate|assumption].
Qed.

(** X11: getErrorMessage never returns the empty string: whatever the
    error, also one with an empty message or none at all, the panel has
    a text to show. *)
Theorem getErrorMessage_never_empty (error : option ErrorValue) :
  getErrorMessage error <> "".
Proof.
  destruct error as [[e|name message]|]; cbn; try discriminate.
  - destruct (NormalizedError.isNetworkError e); [discriminate|].
    destruct (NormalizedError.isTimeout e); [discriminate|].
    destruct (bool_decide _); [discriminate|].
    destruct (bool_decide _); [discriminate|].
    apply message_or_default_not_empty.
  - apply message_or_default_not_empty.
Qed.

(** ** The territory section *)

(** The run of getTerritoryMetrics on territory records, with the heap
    it leaves. *)
Lemma getTerritoryMetrics_sorted_run (w : World) (useMock : bool)
  (h : Heap) (response : FetchResponse.t)
  (props : list (string * JsValue)) (r : loc) :
  fetch_outcome w "/data/ca_businesses_standardized_by_zip_code.json"
  = FetchResolved response ->
  (200 <= FetchResponse.status response <= 299)%Z ->
  FetchResponse.body response = JsonParsed (JsObject props) ->
  lookup_prop "territories" props = JsArray r ->
  Forall (fun t => is_territory t = true) (heap_read h r) ->
  completion (dataService.getTerritoryMetrics w useMock h)
  = Normal
      (Envelope.mk
         (metrics_object
            (js_or (lookup_prop "group_by" props) (JsString "zip_code"))
            (js_or (lookup_prop "summary" props) JsNull)
            (length h))
         None) /\
  final_heap (dataService.getTerritoryMetrics w useMock h)
  = h ++ [sort_desc (heap_read h r)].
Proof.
  intros Hfetch Hstatus Hbody Hfield Hall.
  destruct (getTerritoryMetrics_parsed w useMock h response (JsObject props)
              Hfetch (status_ok _ Hstatus) Hbody)
    as [Hc Hh]; [discriminate|discriminate|].
  cbn [prop] in Hc, Hh. rewrite Hfield in Hc, Hh.
  assert (Hread : heap_read (h ++ [heap_read h r]) (length h)
                  = heap_read h r).
  { unfold heap_read at 1. rewrite list_lookup_middle; reflexivity. }
  rewrite array_sort_run in Hc, Hh by (rewrite Hread; exact Hall).
  rewrite Hread in Hh. cbn in Hc, Hh.
  split; [exact Hc|]. rewrite Hh. unfold heap_write.
  replace (length h) with (length h + 0) at 1 by lia.
  rewrite insert_app_r. reflexivity.
Qed.

Lemma render_rows_run (rows : loc) (h : Heap) :
  Forall (fun t => nullish t = false) (heap_read h rows) ->
  render_rows rows h = (Normal tt, h, []).
Proof.
  intros Hrows. unfold render_rows, bind, read_array.
  induction Hrows as [|t items Ht Hitems IH]; cbn; [reflexivity|].
  unfold bind.
  destruct (get_prop_cases "territory_id" t h) as [[_ ->]|[Hn _]];
    [|congruence].
  cbn in *. unfold bind in IH. 
  destruct (for_of _ items tt h) as [[c h1] t1].
  injection IH as -> -> ->. reflexivity.
Qed.

Lemma territory_not_nullish (items : list JsValue) :
  Forall (fun t => is_territory t = true) items ->
  Forall (fun t => nullish t = false) items.
Proof.
  intros Hitems. eapply Forall_impl; [exact Hitems|].
  intros t Ht. destruct t; try discriminate; reflexivity.
Qed.

(** The run of getTerritoryMetrics on a payload without a territories
    array, with the heap it leaves. *)
Lemma getTerritoryMetrics_no_array_run (w : World) (useMock : bool)
  (h : Heap) (response : FetchResponse.t) (payload : JsValue) :
  fetch_outcome w "/data/ca_businesses_standardized_by_zip_code.json"
  = FetchResolved response ->
  (200 <= FetchResponse.status response <= 299)%Z ->
  FetchResponse.body response = JsonParsed payload ->
  nullish payload = false ->
  isArray (prop "territories" payload) = false ->
  completion (dataService.getTerritoryMetrics w useMock h)
  = Normal
      (Envelope.mk
         (metrics_object
            (js_or (prop "group_by" payload) (JsString "zip_code"))
            (js_or (prop "summary" payload) JsNull)
            (length h))
         None) /\
  final_heap (dataService.getTerritoryMetrics w useMock h) = h ++ [[]].
Proof.
  intros Hfetch Hstatus Hbody Hdef Harr.
  destruct (getTerritoryMetrics_parsed w useMock h response payload
              Hfetch (status_ok _ Hstatus) Hbody) as [Hc Hh].
  { intros ->. discriminate. }
  { intros ->. discriminate. }
  assert (Hitems : match prop "territories" payload with
                   | JsArray r => heap_read h r
                   | _ => []
                   end = []).
  { destruct (prop "territories" payload); try reflexivity; discriminate. }
  rewrite Hitems in Hc, Hh.
  assert (Hsort : array_sort (by_business_count w) (length h) (h ++ [[]])
                  = (Normal tt, h ++ [[]], [])).
  { rewrite array_sort_run.
    - unfold heap_read, heap_write.
      rewrite list_lookup_middle by reflexivity. cbn.
      rewrite list_insert_id; [reflexivity|].
      apply list_lookup_middle. reflexivity.
    - unfold heap_read. rewrite list_lookup_middle by reflexivity.
      constructor. }
  rewrite Hsort in Hc, Hh. split; [exact Hc|exact Hh].
Qed.

Lemma is_row_territory (h : Heap) (items : list JsValue) :
  Forall (fun t => is_row h t = true) items ->
  Forall (fun t => is_territory t = true) items.
Proof.
  intros Hrows. eapply Forall_impl; [exact Hrows|].
  intros t Ht. unfold is_row in Ht.
  repeat (apply andb_prop in Ht; destruct Ht as [Ht _]). exact Ht.
Qed.

(** A parsed payload that is null has no fields to read: the TypeError
    is the error of the envelope. *)
Lemma getTerritoryMetrics_nullish_payload (w : World) (useMock : bool)
  (h : Heap) (response : FetchResponse.t) (payload : JsValue) :
  fetch_outcome w "/data/ca_businesses_standardized_by_zip_code.json"
  = FetchResolved response ->
  (200 <= FetchResponse.status response <= 299)%Z ->
  FetchResponse.body response = JsonParsed payload ->
  nullish payload = true ->
  exists message,
    completion (dataService.getTerritoryMetrics w useMock h)
    = Normal (Envelope.mk JsNull (Some (JsError "TypeError" message))).
Proof.
  intros Hfetch Hstatus Hbody Hnull.
  unfold dataService.getTerritoryMetrics, try_catch, bind, fetch, emit,
    json, completion.
  rewrite Hfetch; cbn. rewrite (status_ok _ Hstatus), Hbody; cbn.
  destruct payload; try discriminate; cbn; eauto.
Qed.

(** X12: what TerritoryMetricsSection shows for the settled result of
    getTerritoryMetrics (its data and error, loading = false) after a
    fetch with a 2xx status. A body without a territories array gives
    the empty state if it is a JSON value other than null, and the
    error panel if it is null; an empty territories array gives the
    empty state; and territory records whose cells can be drawn, in a
    payload whose heading and cards can be drawn, give the table, with
    the sorted copy as its rows and, when the summary has no
    territory_count, the number of records in the first card. *)
Theorem TerritoryMetricsSection_after_fetch (w : World) (useMock : bool)
  (h : Heap) (response : FetchResponse.t) :
  fetch_outcome w "/data/ca_businesses_standardized_by_zip_code.json"
  = FetchResolved response ->
  (200 <= FetchResponse.status response <= 299)%Z ->
  let run := dataService.getTerritoryMetrics w useMock h in
  let view e :=
    completion
      (TerritoryMetricsSection (Envelope.data e) false (Envelope.error e)
         (final_heap run)) in
  (forall payload e,
      FetchResponse.body response = JsonParsed payload ->
      isArray (prop "territories" payload) = false ->
      completion run = Normal e ->
      if nullish payload
      then exists text, view e = Normal (TerritoryError text)
      else view e = Normal TerritoryEmpty) /\
  (forall props r e,
      FetchResponse.body response = JsonParsed (JsObject props) ->
      lookup_prop "territories" props = JsArray r ->
      Forall (fun t => is_row h t = true) (heap_read h r) ->
      is_summary props = true ->
      completion run = Normal e ->
      match heap_read h r with
      | [] => view e = Normal TerritoryEmpty
      | _ :: _ =>
          exists group territory_count,
            view e
            = Normal (TerritoryTable group territory_count (length h)) /\
            heap_read (final_heap run) (length h)
            = sort_desc (heap_read h r) /\
            (nullish
               (optional_prop "territory_count"
                  (js_or (lookup_prop "summary" props) JsNull)) = true ->
             territory_count
             = JsNumber (Z.of_nat (length (heap_read h r))))
      end).
Proof.
  intros Hfetch Hstatus run view. split.
  - intros payload e Hbody Harr He.
    destruct (nullish payload) eqn:Hdef.
    + destruct (getTerritoryMetrics_nullish_payload w useMock h response
                  payload Hfetch Hstatus Hbody Hdef) as [message Hc].
      subst view run. cbv beta. rewrite Hc in He. injection He as <-.
      eexists. reflexivity.
    + destruct (getTerritoryMetrics_no_array_run w useMock h response
                  payload Hfetch Hstatus Hbody Hdef Harr) as [Hc Hh].
      subst view run. cbv beta. rewrite Hc in He. injection He as <-.
      rewrite Hh. cbn. unfold bind, read_array, heap_read.
      rewrite list_lookup_middle by reflexivity. reflexivity.
  - intros props r e Hbody Hfield Hrows _ He.
    pose proof (is_row_territory h _ Hrows) as Hall.
    destruct (getTerritoryMetrics_sorted_run w useMock h response props r
                Hfetch Hstatus Hbody Hfield Hall) as [Hc Hh].
    subst view run. cbv beta. rewrite Hc in He. injection He as <-.
    rewrite Hh.
    assert (Hread : heap_read (h ++ [sort_desc (heap_read h r)]) (length h)
                    = sort_desc (heap_read h r)).
    { unfold heap_read. rewrite list_lookup_middle; reflexivity. }
    assert (Hlen : length (sort_desc (heap_read h r))
                   = length (heap_read h r)).
    { symmetry. apply Permutation_length. apply sort_desc_perm. }
    clear Hrows.
    destruct (heap_read h r) as [|t items] eqn:Hitems.
    + cbn. unfold bind, read_array, heap_read.
      rewrite list_lookup_middle by reflexivity. reflexivity.
    + cbn [TerritoryMetricsSection Envelope.data Envelope.error
             error_truthy metrics_object truthy negb prop lookup_prop].
      cbn [String.eqb Ascii.eqb Bool.eqb]. cbn [truthy negb js_length].
      unfold bind at 1. unfold bind at 1. unfold read_array at 1.
      rewrite Hread, Hlen. cbn [ret length is_zero].
      destruct (Z.eqb_spec (Z.of_nat (S (length items))) 0) as [Hz|_];
        [lia|].
      unfold bind. rewrite render_rows_run.
      * do 2 eexists. split; [reflexivity|]. split; [reflexivity|].
        intros Hnull. rewrite Hnull. reflexivity.
      * rewrite Hread. apply territory_not_nullish.
        rewrite <- sort_desc_perm. exact Hall.
Qed.

Lemma TerritoryMetricsSection_after_fetch_witness :
  completion
    (TerritoryMetricsSection
       (metrics_object (JsString "zip_code") JsNull 1) false None
       (counts_heap ++ [[]]))
  = Normal TerritoryEmpty /\
  exists group territory_count,
    completion
      (TerritoryMetricsSection
         (metrics_object (JsString "zip_code")
            (JsObject [("territory_count", JsNumber 2)]) 2)
         false None
         (final_heap
            (dataService.getTerritoryMetrics (static_world full_payload)
               false full_heap)))
    = Normal (TerritoryTable group territory_count 2).
Proof.
  split.
  - refine (proj1 (TerritoryMetricsSection_after_fetch
                     (static_world bare_payload) false counts_heap
                     (FetchResponse.mk 200 (JsonParsed bare_payload))
                     eq_refl _)
              bare_payload
              (Envelope.mk (metrics_object (JsString "zip_code") JsNull 1)
                 None)
              eq_refl eq_refl eq_refl).
    cbn. lia.
  - destruct (proj2 (TerritoryMetricsSection_after_fetch
                       (static_world full_payload) false full_heap
                       (FetchResponse.mk 200 (JsonParsed full_payload))
                       eq_refl ltac:(cbn; lia))
                [("group_by", JsString "zip_code");
                 ("summary", JsObject [("territory_count", JsNumber 2)]);
                 ("territories", JsArray 0)]
                0
                (Envelope.mk
                   (metrics_object (JsString "zip_code")
                      (JsObject [("territory_count", JsNumber 2)]) 2)
                   None)
                eq_refl eq_refl)
      as [group [territory_count [Hview _]]].
    + repeat constructor.
    + reflexivity.
    + reflexivity.
    + exists group, territory_count. exact Hview.
Defined.

(** X13: when the territory file answers with a status outside 200-299,
    the error panel of TerritoryMetricsSection shows the message of the
    Error that getTerritoryMetrics built, 'Failed to load territory
    metrics: <status>', also for 404 and 500: the Error has no status
    field for the panel's own 404 and 500 texts to apply. *)
Theorem TerritoryMetricsSection_error_text (w : World) (useMock : bool)
  (h h' : Heap) (response : FetchResponse.t) (e : Envelope.t) :
  fetch_outcome w "/data/ca_businesses_standardized_by_zip_code.json"
  = FetchResolved response ->
  (FetchResponse.status response < 200 \/
   299 < FetchResponse.status response)%Z ->
  completion (dataService.getTerritoryMetrics w useMock h) = Normal e ->
  completion
    (TerritoryMetricsSection (Envelope.data e) false (Envelope.error e) h')
  = Normal
      (TerritoryError
         ("Failed to load territory metrics: "
          +:+ pretty (FetchResponse.status response))).
Proof.
  intros Hfetch Hstatus He.
  pose proof (getTerritoryMetrics_failure_cases w useMock h) as Hcases.
  rewrite Hfetch in Hcases.
  assert (Hok : FetchResponse.ok response = false).
  { unfold FetchResponse.ok. lia. }
  rewrite Hok in Hcases. rewrite Hcases in He. injection He as <-.
  reflexivity.
Qed.

Lemma TerritoryMetricsSection_error_text_witness :
  completion
    (TerritoryMetricsSection JsNull false
       (Some (JsError "Error" "Failed to load territory metrics: 500")) [])
  = Normal (TerritoryError "Failed to load territory metrics: 500").
Proof.
  refine (TerritoryMetricsSection_error_text failing_world true [] []
            (FetchResponse.mk 500
               (JsonRejected
                  (JsError "SyntaxError" "Unexpected end of JSON input")))
            (Envelope.mk JsNull
               (Some (JsError "Error"
                        "Failed to load territory metrics: 500")))
            eq_refl _ eq_refl).
  cbn. lia.
Defined.

(** ** The dashboard *)

(** The dashboard when statistics and territory metrics have settled
    without error and there are territories to show. *)
Lemma Dashboard_run (stats g s : JsValue) (a : loc) (h1 : Heap) :
  Forall (fun t => nullish t = false) (take 10 (heap_read h1 a)) ->
  take 10 (heap_read h1 a) <> [] ->
  Dashboard stats false None (metrics_object g s a) false None h1
  = (Normal (DashboardContent stats (TopTerritories (length h1))),
     h1 ++ [take 10 (heap_read h1 a)], []).
Proof.
  intros Hrows Hne.
  assert (Hread : heap_read (h1 ++ [take 10 (heap_read h1 a)]) (length h1)
                  = take 10 (heap_read h1 a)).
  { unfold heap_read at 1. rewrite list_lookup_middle; reflexivity. }
  unfold Dashboard, metrics_object.
  cbn [error_truthy optional_prop prop lookup_prop].
  cbn [String.eqb Ascii.eqb Bool.eqb]. cbn [nullish].
  unfold slice, bind, read_array, new_array, heap_alloc, ret.
  cbn [Nat.sub]. rewrite !drop_0, Hread.
  destruct (take 10 (heap_read h1 a)) as [|t rest] eqn:Htake;
    [congruence|].
  cbn [length Nat.ltb Nat.leb].
  rewrite render_rows_run by (rewrite Hread; exact Hrows).
  reflexivity.
Qed.

(** X14: with the statistics that getStats resolved with and the
    settled result of getTerritoryMetrics on a non-empty list of
    territory records whose cells can be drawn, the dashboard's table of
    top territories is a new array with the first ten of the sorted
    copy: at most ten rows, in descending order of business_count, and
    no territory that is left out has a larger count than one that is
    shown. *)
Theorem Dashboard_top_territories (w : World) (useMock : bool)
  (hs h : Heap) (response : FetchResponse.t)
  (props : list (string * JsValue)) (r : loc) (es e : Envelope.t) :
  completion (dataService.getStats w useMock hs) = Normal es ->
  fetch_outcome w "/data/ca_businesses_standardized_by_zip_code.json"
  = FetchResolved response ->
  (200 <= FetchResponse.status response <= 299)%Z ->
  FetchResponse.body response = JsonParsed (JsObject props) ->
  lookup_prop "territories" props = JsArray r ->
  Forall (fun t => is_row h t = true) (heap_read h r) ->
  heap_read h r <> [] ->
  completion (dataService.getTerritoryMetrics w useMock h) = Normal e ->
  let page :=
    Dashboard (Envelope.data es) false (Envelope.error es)
      (Envelope.data e) false (Envelope.error e)
      (final_heap (dataService.getTerritoryMetrics w useMock h)) in
  exists rows shown rest,
    completion page
    = Normal (DashboardContent (Envelope.data es) (TopTerritories rows)) /\
    heap_read (final_heap page) rows = shown /\
    Permutation (heap_read h r) (shown ++ rest) /\
    length shown = Nat.min 10 (length (heap_read h r)) /\
    StronglySorted desc shown /\
    forall a b, In a shown -> In b rest ->
      (business_count b <= business_count a)%Z.
Proof.
  intros Hs Hfetch Hstatus Hbody Hfield Hrows Hne He page.
  pose proof (is_row_territory h _ Hrows) as Hall.
  destruct (getStats_shape w useMock hs) as (d & hs' & ts & Hrun).
  rewrite Hrun in Hs. injection Hs as <-.
  destruct (getTerritoryMetrics_sorted_run w useMock h response props r
              Hfetch Hstatus Hbody Hfield Hall) as [Hc Hh].
  rewrite Hc in He. injection He as <-. subst page. rewrite Hh.
  set (sorted := sort_desc (heap_read h r)).
  assert (Hperm : Permutation (heap_read h r) sorted)
    by apply sort_desc_perm.
  assert (Hsorted : StronglySorted desc sorted)
    by apply sort_desc_strongly_sorted.
  assert (Hread : heap_read (h ++ [sorted]) (length h) = sorted).
  { unfold heap_read. rewrite list_lookup_middle; reflexivity. }
  assert (Hlen : length (take 10 sorted)
                 = Nat.min 10 (length (heap_read h r))).
  { rewrite length_take. rewrite (Permutation_length Hperm). reflexivity. }
  cbn [Envelope.data Envelope.error].
  rewrite Dashboard_run; rewrite Hread.
  - exists (length (h ++ [sorted])), (take 10 sorted), (drop 10 sorted).
    rewrite <- (take_drop 10 sorted) in Hsorted.
    split; [reflexivity|].
    split.
    { unfold final_heap, heap_read. cbn.
      rewrite list_lookup_middle; reflexivity. }
    split; [rewrite take_drop; exact Hperm|].
    split; [exact Hlen|].
    split; [apply (StronglySorted_app_1_l _ _ _ Hsorted)|].
    intros a b Ha Hb.
    apply (StronglySorted_app_1_elem_of _ _ _ a b Hsorted);
      apply list_elem_of_In; assumption.
  - apply territory_not_nullish. apply Forall_take.
    unfold sorted. rewrite <- sort_desc_perm. exact Hall.
  - intros Htake. apply (f_equal (@length JsValue)) in Htake.
    rewrite Hlen in Htake. cbn in Htake.
    destruct (heap_read h r); [congruence|cbn in Htake; lia].
Qed.

Lemma Dashboard_top_territories_witness :
  exists rows shown rest,
    completion
      (Dashboard mockData.stats false None
         (metrics_object (JsString "zip_code")
            (JsObject [("territory_count", JsNumber 2)]) 2)
         false None
         (final_heap
            (dataService.getTerritoryMetrics (static_world full_payload)
               false full_heap)))
    = Normal (DashboardContent mockData.stats (TopTerritories rows)) /\
    Permutation (heap_read full_heap 0) (shown ++ rest) /\
    length shown = 2.
Proof.
  destruct (Dashboard_top_territories (static_world full_payload) false
              [] full_heap
              (FetchResponse.mk 200 (JsonParsed full_payload))
              [("group_by", JsString "zip_code");
               ("summary", JsObject [("territory_count", JsNumber 2)]);
               ("territories", JsArray 0)]
              0
              (Envelope.mk mockData.stats None)
              (Envelope.mk
                 (metrics_object (JsString "zip_code")
                    (JsObject [("territory_count", JsNumber 2)]) 2)
                 None)
              eq_refl eq_refl)
    as [rows [shown [rest [Hpage [_ [Hperm [Hlen _]]]]]]].
  - cbn. lia.
  - reflexivity.
  - reflexivity.
  - repeat constructor.
  - discriminate.
  - reflexivity.
  - exists rows, shown, rest.
    split; [exact Hpage|]. split; [exact Hperm|exact Hlen].
Defined.

(** X15: whatever getStats and getTerritoryMetrics resolve with, a
    failure of the territory file never puts the dashboard's error panel
    on screen: with the statistics settled and the territory envelope
    carrying an error, the dashboard shows its content with those
    statistics and the note that territory metrics are not available. *)
Theorem Dashboard_survives_territory_failure (w : World) (useMock : bool)
  (h hT h' : Heap) (es et : Envelope.t) :
  completion (dataService.getStats w useMock h) = Normal es ->
  completion (dataService.getTerritoryMetrics w useMock hT) = Normal et ->
  Envelope.error et <> None ->
  completion
    (Dashboard (Envelope.data es) false (Envelope.error es)
       (Envelope.data et) false (Envelope.error et) h')
  = Normal (DashboardContent (Envelope.data es) TerritoryUnavailable).
Proof.
  intros Hs Ht Herr.
  destruct (getStats_shape w useMock h) as (d & hs & ts & Hrun).
  rewrite Hrun in Hs. injection Hs as <-.
  destruct (getTerritoryMetrics_trace_envelope w useMock hT)
    as [_ [e [He Hone]]].
  rewrite He in Ht. injection Ht as <-.
  destruct Hone as [[_ Hnone]|[Hdata Hsome]]; [congruence|].
  destruct e as [data error]. cbn in *. subst data.
  destruct error as [err|]; [|congruence].
  reflexivity.
Qed.

Lemma Dashboard_survives_territory_failure_witness :
  completion
    (Dashboard mockData.stats false None JsNull false
       (Some (JsError "Error" "Failed to load territory metrics: 500")) [])
  = Normal (DashboardContent mockData.stats TerritoryUnavailable).
Proof.
  refine (Dashboard_survives_territory_failure failing_world false [] [] []
            (Envelope.mk mockData.stats None)
            (Envelope.mk JsNull
               (Some (JsError "Error"
                        "Failed to load territory metrics: 500")))
            eq_refl eq_refl _).
  discriminate.
Defined.

(** ** Navigation *)

Lemma nav_sections_rendered :
  Forall (fun id => snd (App.renderSection id) = false) nav_ids.
Proof. repeat constructor. Qed.

Lemma nav_lookup (n : nat) (id label icon : string) :
  App.NAV_SECTIONS !! n = Some (id, label, icon) -> In id nav_ids.
Proof.
  intros Hn. unfold nav_ids. apply in_map_iff.
  exists (id, label, icon). split; [reflexivity|].
  apply list_elem_of_In. eapply list_elem_of_lookup_2. exact Hn.
Qed.

Lemma step_nav_invariant (s : App.State) (ev : App.Event) :
  nav_invariant s -> nav_invariant (App.step s ev).
Proof.
  intros [Hactive Htimers]. destruct ev as [n|]; cbn.
  - destruct (App.NAV_SECTIONS !! n) as [[[id label] icon]|] eqn:Hn;
      [|split; assumption].
    unfold App.handleNavigation.
    destruct (String.eqb id (App.active s)); [split; assumption|].
    split; [exact Hactive|]. cbn.
    apply Forall_app. split; [exact Htimers|].
    constructor; [|constructor]. eapply nav_lookup. exact Hn.
  - unfold App.timeout. destruct (App.timers s) as [|id rest] eqn:Ht;
      [split; [assumption|rewrite Ht; constructor]|].
    inversion Htimers; subst. split; assumption.
Qed.

(** X16: however the user clicks the navigation buttons and whenever
    the 150 ms timers fire, the active section of App is always one of
    the entries of NAV_SECTIONS, so renderSection never falls into its
    default branch; and two different entries never render the same
    section. *)
Theorem navigation_stays_on_sections :
  (forall events : list App.Event,
      In (App.active (App.run events)) nav_ids /\
      snd (App.renderSection (App.active (App.run events))) = false) /\
  (forall a b : string,
      In a nav_ids -> In b nav_ids ->
      fst (App.renderSection a) = fst (App.renderSection b) -> a = b).
Proof.
  split.
  - intros events.
    assert (Hinv : forall s, nav_invariant s ->
                     nav_invariant (fold_left App.step events s)).
    { induction events as [|ev events IH]; intros s Hs; cbn; [exact Hs|].
      apply IH. apply step_nav_invariant. exact Hs. }
    destruct (Hinv App.initial) as [Hactive _].
    { split; [left; reflexivity|constructor]. }
    split; [exact Hactive|].
    pose proof nav_sections_rendered as Hall.
    rewrite Forall_forall in Hall. apply Hall.
    apply list_elem_of_In. exact Hactive.
  - intros a b Ha Hb.
    cbn in Ha, Hb.
    repeat (destruct Ha as [<-|Ha]; [|]); try contradiction;
      repeat (destruct Hb as [<-|Hb]; [|]); try contradiction;
      cbn; intros Heq; (reflexivity || discriminate).
Qed.

Lemma navigation_stays_on_sections_witness :
  App.active (App.run [App.Click 3; App.TimerFires]) = "docs" /\
  In (App.active (App.run [App.Click 3; App.TimerFires])) nav_ids /\
  "docs" = "docs".
Proof.
  split; [reflexivity|]. split.
  - exact (proj1 (proj1 navigation_stays_on_sections
                    [App.Click 3; App.TimerFires])).
  - apply (proj2 navigation_stays_on_sections "docs" "docs").
    + cbn. tauto.
    + cbn. tauto.
    + reflexivity.
Defined.

(** * Further properties of the computed results *)

Lemma cardinality_of_unique (P Q : JsValue -> Prop) (m n : Z) :
  (forall v, P v <-> Q v) ->
  cardinality_of P m -> cardinality_of Q n -> m = n.
Proof.
  intros Hiff [vs [Hnd [Hin ->]]] [ws [Hnd' [Hin' ->]]].
  f_equal. apply Permutation_length.
  apply NoDup_Permutation; [exact Hnd|exact Hnd'|].
  intros v. rewrite !list_elem_of_In, Hin, Hin'. apply Hiff.
Qed.

Lemma field_value_perm (name : string) (l1 l2 : list JsValue)
  (v : JsValue) :
  Permutation l1 l2 -> field_value name l1 v -> field_value name l2 v.
Proof.
  intros Hperm [rec [Hin Hv]]. exists rec. split; [|exact Hv].
  eapply Permutation_in; eassumption.
Qed.

Lemma collect_size_perm (name : string) (l1 l2 : list JsValue) :
  Permutation l1 l2 ->
  Forall (fun rec => scalar (prop name rec) = true) l1 ->
  JsSet.size (collect (map (prop name) l1) JsSet.empty)
  = JsSet.size (collect (map (prop name) l2) JsSet.empty).
Proof.
  intros Hperm Hl1.
  assert (Hl2 : Forall (fun rec => scalar (prop name rec) = true) l2).
  { rewrite <- Hperm. exact Hl1. }
  eapply cardinality_of_unique;
    [|apply collect_cardinality; exact Hl1
     |apply collect_cardinality; exact Hl2].
  intros v. split; intros [Ht Hv]; (split; [exact Ht|]).
  - eapply field_value_perm; eassumption.
  - eapply field_value_perm; [symmetry|]; eassumption.
Qed.

(** X17: the derived statistics do not depend on the order of the
    records: for two bulk arrays of flat records that are permutations
    of each other, getStats returns the same envelope. *)
Theorem getStats_order_independent (w : World) (useMock : bool)
  (h1 h2 : Heap) (response : FetchResponse.t) (r : loc) :
  fetch_outcome w "/data/ca_businesses_standardized.json"
  = FetchResolved response ->
  (200 <= FetchResponse.status response <= 299)%Z ->
  FetchResponse.body response = JsonParsed (JsArray r) ->
  Forall (fun rec => is_flat_record rec = true) (heap_read h1 r) ->
  Permutation (heap_read h1 r) (heap_read h2 r) ->
  completion (dataService.getStats w useMock h1)
  = completion (dataService.getStats w useMock h2).
Proof.
  intros Hfetch Hstatus Hbody Hflat Hperm.
  assert (Hflat2 : Forall (fun rec => is_flat_record rec = true)
                     (heap_read h2 r)).
  { rewrite <- Hperm. exact Hflat. }
  destruct (flat_record_fields _ Hflat) as [Hzip [Hbg Hcity]].
  unfold dataService.getStats, try_catch, bind, fetch, emit, json,
    completion.
  rewrite Hfetch; cbn. rewrite (status_ok _ Hstatus), Hbody; cbn.
  unfold read_array.
  rewrite !for_of_count_record_run by assumption.
  rewrite !fold_count_fields. cbn.
  rewrite (collect_size_perm "zip_code" _ _ Hperm Hzip).
  rewrite (collect_size_perm "blockgroup" _ _ Hperm Hbg).
  rewrite (collect_size_perm "city" _ _ Hperm Hcity).
  rewrite (Permutation_length Hperm). reflexivity.
Qed.

Lemma getStats_order_independent_witness :
  completion
    (dataService.getStats (static_world (JsArray 0)) false example_records)
  = completion
      (dataService.getStats (static_world (JsArray 0)) false
         [[JsObject [("zip_code", JsString "B"); ("city", JsString "X")];
           JsObject [("zip_code", JsString "A"); ("city", JsString "X")];
           JsObject [("zip_code", JsString "A"); ("city", JsString "Y")]]]).
Proof.
  apply (getStats_order_independent (static_world (JsArray 0)) false
           example_records _
           (FetchResponse.mk 200 (JsonParsed (JsArray 0))) 0 eq_refl).
  - cbn. lia.
  - reflexivity.
  - repeat constructor.
  - cbn. symmetry. apply Permutation_cons_append.
Defined.

Lemma sort_desc_sorted_id (l : list JsValue) :
  StronglySorted desc l -> sort_desc l = l.
Proof.
  induction 1 as [|x xs Hxs IH Hx]; cbn; [reflexivity|].
  rewrite IH. destruct xs as [|y ys]; [reflexivity|]. cbn.
  inversion Hx as [|? ? Hxy _]; subst. unfold desc in Hxy.
  destruct (business_count y <=? business_count x)%Z eqn:Hle;
    [reflexivity|lia].
Qed.

(** X18: a territory file whose records are already in descending order
    of business_count comes back in exactly that order: the sort changes
    nothing, ties included. *)
Theorem getTerritoryMetrics_keeps_sorted_input (w : World)
  (useMock : bool) (h : Heap) (response : FetchResponse.t)
  (props : list (string * JsValue)) (r : loc) :
  fetch_outcome w "/data/ca_businesses_standardized_by_zip_code.json"
  = FetchResolved response ->
  (200 <= FetchResponse.status response <= 299)%Z ->
  FetchResponse.body response = JsonParsed (JsObject props) ->
  lookup_prop "territories" props = JsArray r ->
  Forall (fun t => is_territory t = true) (heap_read h r) ->
  StronglySorted desc (heap_read h r) ->
  heap_read (final_heap (dataService.getTerritoryMetrics w useMock h))
    (length h)
  = heap_read h r.
Proof.
  intros Hfetch Hstatus Hbody Hfield Hall Hsorted.
  destruct (getTerritoryMetrics_sorted_run w useMock h response props r
              Hfetch Hstatus Hbody Hfield Hall) as [_ ->].
  rewrite sort_desc_sorted_id by exact Hsorted.
  unfold heap_read at 1. rewrite list_lookup_middle; reflexivity.
Qed.

Lemma getTerritoryMetrics_keeps_sorted_input_witness :
  heap_read
    (final_heap
       (dataService.getTerritoryMetrics (static_world counts_payload) false
          [[territory "92103" (JsNumber 10); territory "92101" (JsNumber 5);
            territory "92102" (JsNumber 5); territory "92104" JsUndefined]]))
    1
  = [territory "92103" (JsNumber 10); territory "92101" (JsNumber 5);
     territory "92102" (JsNumber 5); territory "92104" JsUndefined].
Proof.
  apply (getTerritoryMetrics_keeps_sorted_input
           (static_world counts_payload) false
           [[territory "92103" (JsNumber 10);
             territory "92101" (JsNumber 5);
             territory "92102" (JsNumber 5);
             territory "92104" JsUndefined]]
           (FetchResponse.mk 200 (JsonParsed counts_payload))
           [("group_by", JsString "zip_code");
            ("summary", JsObject [("total_territories", JsNumber 4)]);
            ("territories", JsArray 0)]
           0 eq_refl).
  - cbn. lia.
  - reflexivity.
  - reflexivity.
  - repeat constructor.
  - repeat constructor; unfold desc; cbn; lia.
Defined.

(** * A success of the service that the components cannot render *)

Lemma array_sort_single (w : World) (h : Heap) (t : JsValue) :
  array_sort (by_business_count w) (length h) (h ++ [[t]])
  = (Normal tt, h ++ [[t]], []).
Proof.
  unfold array_sort, bind, read_array, write_array, heap_read.
  rewrite list_lookup_middle by reflexivity.
  destruct t; cbn; unfold heap_write;
    (rewrite list_insert_id;
     [reflexivity|apply list_lookup_middle; reflexivity]).
Qed.

(** X19: a territory file whose territories array holds the single
    entry null is a success for getTerritoryMetrics (nothing is compared,
    so nothing throws), but neither TerritoryMetricsSection nor Dashboard
    can render the result: drawing the row reads a field of null and the
    render throws a TypeError. *)
Theorem single_null_territory_breaks_render (w : World) (useMock : bool)
  (h : Heap) (response : FetchResponse.t)
  (props : list (string * JsValue)) (r : loc) (stats : JsValue) :
  fetch_outcome w "/data/ca_businesses_standardized_by_zip_code.json"
  = FetchResolved response ->
  (200 <= FetchResponse.status response <= 299)%Z ->
  FetchResponse.body response = JsonParsed (JsObject props) ->
  lookup_prop "territories" props = JsArray r ->
  heap_read h r = [JsNull] ->
  let run := dataService.getTerritoryMetrics w useMock h in
  exists e,
    completion run = Normal e /\
    Envelope.error e = None /\
    (exists message,
        completion
          (TerritoryMetricsSection (Envelope.data e) false
             (Envelope.error e) (final_heap run))
        = Throw (JsError "TypeError" message)) /\
    (exists message,
        completion
          (Dashboard stats false None (Envelope.data e) false
             (Envelope.error e) (final_heap run))
        = Throw (JsError "TypeError" message)).
Proof.
  intros Hfetch Hstatus Hbody Hfield Hitems run.
  destruct (getTerritoryMetrics_parsed w useMock h response (JsObject props)
              Hfetch (status_ok _ Hstatus) Hbody)
    as [Hc Hh]; [discriminate|discriminate|].
  cbn [prop] in Hc, Hh. rewrite Hfield, Hitems in Hc, Hh.
  rewrite array_sort_single in Hc, Hh. cbn in Hc, Hh.
  assert (Hread : heap_read (h ++ [[JsNull]]) (length h) = [JsNull]).
  { unfold heap_read. rewrite list_lookup_middle; reflexivity. }
  assert (Hread' : heap_read ((h ++ [[JsNull]]) ++ [[JsNull]])
                     (length (h ++ [[JsNull]])) = [JsNull]).
  { unfold heap_read. rewrite list_lookup_middle; reflexivity. }
  assert (Hrows : forall rows h1,
    heap_read h1 rows = [JsNull] ->
    exists message,
      render_rows rows h1 = (Throw (JsError "TypeError" message), h1, [])).
  { intros rows h1 Hrows. unfold render_rows, bind, read_array.
    rewrite Hrows. cbn. eauto. }
  eexists. split; [exact Hc|]. split; [reflexivity|].
  subst run. rewrite Hh. split.
  - destruct (Hrows _ _ Hread) as [message Hthrow].
    exists message.
    cbn [TerritoryMetricsSection Envelope.data Envelope.error
           error_truthy metrics_object truthy negb prop lookup_prop].
    cbn [String.eqb Ascii.eqb Bool.eqb]. cbn [truthy negb js_length].
    unfold bind at 1. unfold bind at 1. unfold read_array at 1.
    rewrite Hread. cbn [ret length is_zero].
    change (Z.of_nat 1 =? 0)%Z with false. cbv iota.
    unfold bind. rewrite Hthrow. reflexivity.
  - destruct (Hrows _ _ Hread') as [message Hthrow].
    exists message.
    unfold Dashboard, metrics_object.
    cbn [Envelope.data Envelope.error error_truthy optional_prop prop
           lookup_prop].
    cbn [String.eqb Ascii.eqb Bool.eqb]. cbn [nullish].
    unfold slice, bind, read_array, new_array, heap_alloc, ret.
    cbn [Nat.sub]. rewrite !drop_0, Hread. cbn [take].
    rewrite Hread'. cbn [length Nat.ltb Nat.leb].
    rewrite Hthrow. reflexivity.
Qed.

Lemma single_null_territory_breaks_render_witness :
  exists message,
    completion
      (TerritoryMetricsSection
         (metrics_object (JsString "zip_code")
            (JsObject [("total_territories", JsNumber 4)]) 1)
         false None [[JsNull]; [JsNull]])
    = Throw (JsError "TypeError" message).
Proof.
  destruct (single_null_territory_breaks_render
              (static_world counts_payload) false [[JsNull]]
              (FetchResponse.mk 200 (JsonParsed counts_payload))
              [("group_by", JsString "zip_code");
               ("summary", JsObject [("total_territories", JsNumber 4)]);
               ("territories", JsArray 0)]
              0 JsNull eq_refl)
    as [e [He [_ [[message Hview] _]]]].
  - cbn. lia.
  - reflexivity.
  - reflexivity.
  - reflexivity.
  - injection He as <-. exists message. exact Hview.
Defined.
